(** * Sophia Toolkit: the resilient file loaders and the three dashboard pages

    A shallow embedding of [utils/data_loader.py] and [app.py].

    - Python values that come out of [json] are the inductive [json];
      a Python [dict] is an association list in insertion order.
    - Text is a sequence of code points below 256 ([string]).
    - The host (file system, the list of [open] calls, the Streamlit
      output) is one record, [world], threaded through a state and
      exception monad [M]; [try]/[except] is [try_except].
    - The libraries the code calls but does not define ([json], [pandas])
      are interfaces ([JsonLib], [PandasLib]); every theorem holds for
      each implementation of them, and reference implementations are
      given so that the pages can be run on concrete files. *)

From Stdlib Require Import ZArith List Ascii String SpecFloat.
From Stdlib Require Import Sorting.Sorted Sorting.Permutation.
From stdpp Require Import base option list gmap strings pretty sorting.

Open Scope string_scope.
Open Scope Z_scope.
Open Scope list_scope.

(** ** Python values *)

Module Py.

#[local] Unset Elimination Schemes.

(** What [json.loads] can return.  Python's [float] is an IEEE binary64
    value, kept here in its exact sign/mantissa/exponent form. *)
Inductive json : Type :=
| JNull
| JBool (b : bool)
| JInt (z : Z)
| JFloat (f : spec_float)
| JStr (s : string)
| JArr (items : list json)
| JObj (fields : list (string * json)).

#[local] Set Elimination Schemes.

(** Exceptions, by the classes the handlers of the source tell apart:
    [except FileNotFoundError], [except json.JSONDecodeError] and
    [except Exception].  [OtherException] stands for every other
    subclass of [Exception] (PermissionError, UnicodeDecodeError,
    RecursionError, TypeError, ...). *)
Inductive exn_class := FileNotFoundError | JSONDecodeError | OtherException.

Record exn := Exn { exn_class_of : exn_class; exn_msg : string }.

Inductive exc (A : Type) : Type :=
| Ret (a : A)
| Raise (e : exn).
Arguments Ret {A} a.
Arguments Raise {A} e.

(** Truth value of an object, as [if x:] and [not x] use it. *)
Definition float_is_zero (f : spec_float) : bool :=
  match f with S754_zero _ => true | _ => false end.

Definition truthy (v : json) : bool :=
  match v with
  | JNull => false
  | JBool b => b
  | JInt z => negb (z =? 0)
  | JFloat f => negb (float_is_zero f)
  | JStr s => negb (String.eqb s "")
  | JArr items => match items with [] => false | _ => true end
  | JObj fields => match fields with [] => false | _ => true end
  end.

Definition isinstance_dict (v : json) : bool :=
  match v with JObj _ => true | _ => false end.

Definition isinstance_list (v : json) : bool :=
  match v with JArr _ => true | _ => false end.

(** Lookup in a [dict]. *)
Fixpoint assoc (k : string) (fields : list (string * json)) : option json :=
  match fields with
  | [] => None
  | (k', v) :: rest => if String.eqb k k' then Some v else assoc k rest
  end.

(** [k in d] for a dict [d]. *)
Definition has_key (k : string) (v : json) : bool :=
  match v with
  | JObj fields => match assoc k fields with Some _ => true | None => false end
  | _ => false
  end.

(** [d.get(k, default)]; an object without a [get] method raises
    AttributeError. *)
Definition py_get (d : json) (k : string) (default : json) : exc json :=
  match d with
  | JObj fields => Ret (match assoc k fields with Some v => v | None => default end)
  | _ => Raise (Exn OtherException "object has no attribute 'get'")
  end.

(** [d[k]] for a dict [d]. *)
Definition py_getitem (d : json) (k : string) : exc json :=
  match d with
  | JObj fields =>
      match assoc k fields with
      | Some v => Ret v
      | None => Raise (Exn OtherException k)
      end
  | _ => Raise (Exn OtherException "object is not subscriptable with this key")
  end.

(** [len(x)]: defined on lists, dicts and strings, TypeError otherwise. *)
Definition py_len (v : json) : exc nat :=
  match v with
  | JArr items => Ret (length items)
  | JObj fields => Ret (length fields)
  | JStr s => Ret (String.length s)
  | _ => Raise (Exn OtherException "object has no len()")
  end.

(** *** [f"{x:.2f}"]

    The exact binary value is rounded to two decimals, ties to even;
    an [int] is first converted to [float] (round to nearest even,
    OverflowError beyond the largest double). *)
Definition two_digits (n : Z) : string :=
  (if n <? 10 then "0" else "") +:+ pretty n.

Definition fixed2 (negative : bool) (hundredths : Z) : string :=
  (if negative then "-" else "") +:+ pretty (hundredths / 100)
    +:+ "." +:+ two_digits (hundredths mod 100).

Definition round_half_even (num den : Z) : Z :=
  let q := num / den in
  let r := num mod den in
  if (den <? 2 * r) || ((den =? 2 * r) && Z.odd q) then q + 1 else q.

Definition float_format_2f (f : spec_float) : string :=
  match f with
  | S754_zero s => fixed2 s 0
  | S754_infinity s => if s then "-inf" else "inf"
  | S754_nan => "nan"
  | S754_finite s m e =>
      if 0 <=? e then fixed2 s (Z.pos m * 2 ^ e * 100)
      else fixed2 s (round_half_even (Z.pos m * 100) (2 ^ (- e)))
  end.

Definition float_of_int (z : Z) : exc spec_float :=
  match binary_normalize 53 1024 z 0 false with
  | S754_infinity _ => Raise (Exn OtherException "int too large to convert to float")
  | f => Ret f
  end.

Definition format_2f (v : json) : exc string :=
  match v with
  | JInt z =>
      match float_of_int z with
      | Ret f => Ret (float_format_2f f)
      | Raise e => Raise e
      end
  | JBool b => Ret (if b then "1.00" else "0.00")
  | JFloat f => Ret (float_format_2f f)
  | JNull => Raise (Exn OtherException "unsupported format string passed to NoneType.__format__")
  | JStr _ => Raise (Exn OtherException "Unknown format code 'f' for object of type 'str'")
  | JArr _ => Raise (Exn OtherException "unsupported format string passed to list.__format__")
  | JObj _ => Raise (Exn OtherException "unsupported format string passed to dict.__format__")
  end.

(** *** Text *)

Definition newline : ascii := ascii_of_nat 10.

(** The characters [str.strip] removes, among code points below 256:
    U+0009..U+000D, U+001C..U+0020, U+0085 and U+00A0. *)
Definition is_space (c : ascii) : bool :=
  let n := nat_of_ascii c in
  ((9 <=? n) && (n <=? 13) || (28 <=? n) && (n <=? 32)
   || (n =? 133) || (n =? 160))%nat.

(** [not line.strip()] *)
Fixpoint is_blank (line : string) : bool :=
  match line with
  | EmptyString => true
  | String c rest => is_space c && is_blank rest
  end.

Definition carriage_return : ascii := ascii_of_nat 13.

(** What a file opened with [open(file_path, 'r')] delivers of its
    content (text mode, universal newlines): the line ends CR LF and CR
    are both turned into LF. *)
Fixpoint universal_newlines (text : string) : string :=
  match text with
  | EmptyString => EmptyString
  | String c rest =>
      if Ascii.eqb c carriage_return then
        String newline
          match rest with
          | String c' rest' =>
              if Ascii.eqb c' newline then universal_newlines rest'
              else universal_newlines rest
          | EmptyString => EmptyString
          end
      else String c (universal_newlines rest)
  end.

(** The lines of a text whose line ends are LF: each line keeps its
    final newline; a last line without one is still a line. *)
Fixpoint lines_of (text : string) : list string :=
  match text with
  | EmptyString => []
  | String c rest =>
      if Ascii.eqb c newline then String c EmptyString :: lines_of rest
      else match lines_of rest with
           | [] => [String c EmptyString]
           | line :: lines => String c line :: lines
           end
  end.

(** Iterating over a text file: a line ends at LF, at CR LF or at a
    lone CR, and is delivered with LF as its end. *)
Definition readlines (text : string) : list string :=
  lines_of (universal_newlines text).

End Py.
Export Py.

(** ** The two libraries the code calls *)

Module Lib.

(** *** [json]

    [json.loads] either returns a value, raises [json.JSONDecodeError],
    or fails in some other way (RecursionError on deeply nested input,
    for one). *)
Inductive parse_outcome :=
| Parsed (v : json)
| Malformed (msg : string)
| ParserFault (msg : string).

Class JsonLib := { json_loads : string → parse_outcome }.

Definition outcome_exc (o : parse_outcome) : exc json :=
  match o with
  | Parsed v => Ret v
  | Malformed msg => Raise (Exn JSONDecodeError msg)
  | ParserFault msg => Raise (Exn OtherException msg)
  end.

(** *** [pandas]

    A cell holds a value or is missing (NaN).  A frame has its column
    labels, its row labels and its rows, each row aligned with the
    columns. *)
Definition cell : Type := option json.

Record frame := Frame {
  columns : list string;
  index : list nat;
  rows : list (list cell)
}.

(** A converted timestamp: an instant, or NaT. *)
Inductive stamp := At (t : Z) | NaT.

(** What [st.line_chart] receives: the index and the plotted columns. *)
Record chart := Chart {
  chart_index : list stamp;
  chart_series : list (string * list cell)
}.

Definition record_fields (v : json) : list (string * json) :=
  match v with JObj fields => fields | _ => [] end.

Definition add_key (cols : list string) (k : string) : list string :=
  if existsb (String.eqb k) cols then cols else cols ++ [k].

(** The columns of a frame built from records: every key, in order of
    first appearance. *)
Definition union_keys (records : list json) : list string :=
  fold_left (λ cols r, fold_left add_key (record_fields r).*1 cols) records [].

Definition row_of (cols : list string) (r : json) : list cell :=
  (λ c, assoc c (record_fields r)) <$> cols.

Definition frame_of_records (records : list json) : frame :=
  let cols := union_keys records in
  Frame cols (seq 0 (length records)) (row_of cols <$> records).

(** [name in df.columns] *)
Definition has_column (name : string) (df : frame) : bool :=
  existsb (String.eqb name) (columns df).

Fixpoint position (name : string) (cols : list string) : option nat :=
  match cols with
  | [] => None
  | c :: rest => if String.eqb name c then Some O else S <$> position name rest
  end.

Definition cell_at (cols : list string) (name : string) (row : list cell) : cell :=
  match position name cols with
  | Some i => mjoin (row !! i)
  | None => None
  end.

(** [df[name]] *)
Definition column (name : string) (df : frame) : list cell :=
  cell_at (columns df) name <$> rows df.

(** [df.tail(n)] *)
Definition tail (n : nat) (df : frame) : frame :=
  Frame (columns df)
        (drop (length (index df) - n) (index df))
        (drop (length (rows df) - n) (rows df)).

(** Ascending order of timestamps with NaT last, as [sort_values] has it. *)
Definition stamp_le (a b : stamp) : Prop :=
  match a, b with
  | _, NaT => True
  | NaT, At _ => False
  | At x, At y => x ≤ y
  end.

#[global] Instance stamp_le_dec : RelDecision stamp_le.
Proof. intros [x|] [y|]; simpl; apply _. Defined.

Definition by_stamp {A : Type} : relation (stamp * A) :=
  λ p q, stamp_le p.1 q.1.

#[global] Instance by_stamp_dec {A : Type} : RelDecision (@by_stamp A).
Proof. intros p q. unfold by_stamp. apply _. Defined.

(** [df.sort_values(by='timestamp')] on rows keyed by their converted
    timestamp.  pandas does not fix the order of rows with equal keys;
    the model takes that of a merge sort. *)
Definition sort_values {A : Type} (keyed : list (stamp * A)) : list (stamp * A) :=
  merge_sort by_stamp keyed.

(** - [DataFrame_irregular]: [pd.DataFrame(x)] where [x] is not a
      non-empty list of dicts.
    - [to_datetime]: [pd.to_datetime] on a column; it keeps the length. *)
Class PandasLib := {
  DataFrame_irregular : json → exc frame;
  to_datetime : list cell → exc (list stamp);
  to_datetime_length : ∀ col ts, to_datetime col = Ret ts → length ts = length col
}.

(** [pd.DataFrame(x)] *)
Definition pd_DataFrame `{PandasLib} (x : json) : exc frame :=
  match x with
  | JArr (r :: rs) =>
      if forallb isinstance_dict (r :: rs) then Ret (frame_of_records (r :: rs))
      else DataFrame_irregular x
  | _ => DataFrame_irregular x
  end.

End Lib.
Export Lib.

(** ** The host: files, and what Streamlit shows *)

Module Host.

(** A path that resolves holds a file of content [text].  It reads
    without error, or opening or reading it fails with [msg] (permission
    denied, undecodable bytes, ...) after [lines_read] of its lines
    were delivered. *)
Inductive node :=
| Readable (text : string)
| Unreadable (text : string) (lines_read : nat) (msg : string).

Inductive widget :=
| PageConfig (page_title layout : string)
| SidebarTitle (s : string)
| SidebarRadio (label : string) (options : list string)
| Title (s : string)
| Subheader (s : string)
| Warning (s : string)
| Error (s : string)
| Info (s : string)
| Columns (n : nat)
| Metric (label : string) (value : json)
| LineChart (c : chart)
| DataFrameView (df : frame) (height : Z)
| TextArea (label text : string) (height : Z).

(** [opened] lists the paths passed to [open], [screen] the widgets
    rendered, both in order of occurrence. *)
Record world := World {
  files : gmap string node;
  opened : list string;
  screen : list widget
}.

Definition M (A : Type) : Type := world → exc A * world.

#[global] Instance M_ret : MRet M := λ A a w, (Ret a, w).

#[global] Instance M_bind : MBind M := λ A B k m w,
  match m w with
  | (Ret a, w') => k a w'
  | (Raise e, w') => (Raise e, w')
  end.

Definition raise {A : Type} (e : exn) : M A := λ w, (Raise e, w).

Definition lift {A : Type} (r : exc A) : M A := λ w, (r, w).

(** [try: body except Exception as e: handler(e)] *)
Definition try_except {A : Type} (body : M A) (handler : exn → M A) : M A := λ w,
  match body w with
  | (Ret a, w') => (Ret a, w')
  | (Raise e, w') => handler e w'
  end.

Definition emit (x : widget) : M unit := λ w,
  (Ret (), World (files w) (opened w) (screen w ++ [x])).

(** [open(file_path, 'r')] *)
Definition py_open (file_path : string) : M node := λ w,
  let w' := World (files w) (opened w ++ [file_path]) (screen w) in
  match files w !! file_path with
  | None =>
      (Raise (Exn FileNotFoundError
                ("[Errno 2] No such file or directory: '" +:+ file_path +:+ "'")), w')
  | Some n => (Ret n, w')
  end.

(** [f.read()], as [json.load] calls it.  (Line ends are left as they
    are here: to [json] CR and LF are the same, white space between
    tokens and a control character inside a string.) *)
Definition f_read (f : node) : exc string :=
  match f with
  | Readable text => Ret text
  | Unreadable _ _ msg => Raise (Exn OtherException msg)
  end.

(** [for line in f]: the lines the iteration yields, and how it ends. *)
Definition f_lines (f : node) : list string * option exn :=
  match f with
  | Readable text => (readlines text, None)
  | Unreadable text lines_read msg =>
      (take lines_read (readlines text), Some (Exn OtherException msg))
  end.

Definition st_title (s : string) : M unit := emit (Title s).
Definition st_subheader (s : string) : M unit := emit (Subheader s).
Definition st_warning (s : string) : M unit := emit (Warning s).
Definition st_error (s : string) : M unit := emit (Error s).
Definition st_info (s : string) : M unit := emit (Info s).
Definition st_columns (n : nat) : M unit := emit (Columns n).
Definition st_line_chart (c : chart) : M unit := emit (LineChart c).
Definition st_dataframe (df : frame) (height : Z) : M unit := emit (DataFrameView df height).
Definition st_text_area (label text : string) (height : Z) : M unit :=
  emit (TextArea label text height).

(** [st.metric] accepts an int, a float, a str or None as value. *)
Definition st_metric (label : string) (value : json) : M unit :=
  match value with
  | JArr _ | JObj _ =>
      raise (Exn OtherException
               "value is not an accepted type. value only accepts: int, float, str, or None")
  | _ => emit (Metric label value)
  end.

End Host.
Export Host.

(** ** utils/data_loader.py *)

Section data_loader.
Context `{JsonLib}.

(** [with open(file_path, 'r') as f: data = json.load(f)] *)
Definition json_load (file_path : string) : M json :=
  f ← py_open file_path;
  text ← lift (f_read f);
  lift (outcome_exc (json_loads text)).

Definition default_ethics_db : json :=
  JObj [("ethical_events", JArr []); ("trend_analysis", JObj [])].

Definition load_ethics_db (file_path : string) : M json :=
  try_except
    (data ← json_load file_path;
     if negb (isinstance_dict data) || negb (has_key "ethical_events" data) then
       st_warning ("Warning: " +:+ file_path +:+
                   " does not contain the expected 'ethical_events' key or is not a dictionary.");;
       mret default_ethics_db
     else mret data)
    (λ e,
       match exn_class_of e with
       | FileNotFoundError =>
           st_error ("Error: Ethics DB file not found at " +:+ file_path +:+
                     ". Please check the path.");;
           mret default_ethics_db
       | JSONDecodeError =>
           st_error ("Error: Could not decode JSON from " +:+ file_path +:+
                     ". The file might be corrupted or empty.");;
           mret default_ethics_db
       | OtherException =>
           st_error ("An unexpected error occurred while loading " +:+ file_path +:+
                     ": " +:+ exn_msg e);;
           mret default_ethics_db
       end).

Definition default_knowledge_graph : json :=
  JObj [("nodes", JArr []); ("edges", JArr [])].

Definition load_knowledge_graph (file_path : string) : M json :=
  try_except
    (data ← json_load file_path;
     if negb (isinstance_dict data) || negb (has_key "nodes" data)
        || negb (has_key "edges" data) then
       st_warning ("Warning: " +:+ file_path +:+
                   " does not contain 'nodes' and 'edges' keys or is not a dictionary.");;
       mret default_knowledge_graph
     else mret data)
    (λ e,
       match exn_class_of e with
       | FileNotFoundError =>
           st_error ("Error: Knowledge Graph file not found at " +:+ file_path +:+
                     ". Please check the path.");;
           mret default_knowledge_graph
       | JSONDecodeError =>
           st_error ("Error: Could not decode JSON from " +:+ file_path +:+
                     ". The file might be corrupted or empty.");;
           mret default_knowledge_graph
       | OtherException =>
           st_error ("An unexpected error occurred while loading " +:+ file_path +:+
                     ": " +:+ exn_msg e);;
           mret default_knowledge_graph
       end).

Definition line_warning (file_path : string) (line_number : nat) : string :=
  "Warning: Could not decode JSON from line " +:+ pretty line_number +:+
  " in " +:+ file_path +:+ ". Skipping line.".

(** The body of [for line_number, line in enumerate(f, 1)]. *)
Definition log_step (file_path : string) (line_number : nat) (line : string)
    (log_entries : list json) : M (list json) :=
  try_except
    (if negb (is_blank line) then
       v ← lift (outcome_exc (json_loads line));
       mret (log_entries ++ [v])%list
     else mret log_entries)
    (λ e,
       match exn_class_of e with
       | JSONDecodeError =>
           st_warning (line_warning file_path line_number);;
           mret log_entries
       | _ => raise e
       end).

Fixpoint log_loop (file_path : string) (line_number : nat) (lines : list string)
    (log_entries : list json) : M (list json) :=
  match lines with
  | [] => mret log_entries
  | line :: rest =>
      log_entries' ← log_step file_path line_number line log_entries;
      log_loop file_path (S line_number) rest log_entries'
  end.

Definition load_system_event_log (file_path : string) : M (list json) :=
  try_except
    (f ← py_open file_path;
     let '(lines, failure) := f_lines f in
     log_entries ← log_loop file_path 1 lines [];
     match failure with
     | Some e => raise e
     | None => mret log_entries
     end)
    (λ e,
       match exn_class_of e with
       | FileNotFoundError =>
           st_error ("Error: System Event Log file not found at " +:+ file_path +:+
                     ". Please check the path.");;
           mret []
       | _ =>
           st_error ("An unexpected error occurred while loading " +:+ file_path +:+
                     ": " +:+ exn_msg e);;
           mret []
       end).

End data_loader.

(** ** app.py *)

Definition SOPHIA_ETHICS_DB_PATH : string := "../Sophia_Alpha2/data/ethics_db.json".
Definition SOPHIA_KG_PATH : string := "../Sophia_Alpha2/data/knowledge_graph.json".
Definition SOPHIA_SYSTEM_LOG_PATH : string := "../Sophia_Alpha2/data/logs/system_events.log".

Definition NUM_LOG_ENTRIES_DISPLAY : nat := 20.

Section app.
Context `{JsonLib} `{PandasLib}.

(** Rows keyed by their converted timestamp, each with its row label. *)
Definition keyed_rows (ts : list stamp) (df : frame) : list (stamp * (nat * list cell)) :=
  zip ts (zip (index df) (rows df)).

(** [df.set_index('timestamp')[['final_score']]] *)
Definition chart_of (cols : list string) (sorted : list (stamp * (nat * list cell))) : chart :=
  Chart (sorted.*1)
        [("final_score", (λ r, cell_at cols "final_score" r.2.2) <$> sorted)].

(** The [try] block of the ethics page. *)
Definition ethics_chart (events : json) : M unit :=
  df_ethics ← lift (pd_DataFrame events);
  if negb (has_column "timestamp" df_ethics) then
    st_error "Error: 'timestamp' column missing in ethical events data."
  else if negb (has_column "final_score" df_ethics) then
    st_error "Error: 'final_score' column missing in ethical events data."
  else
    ts ← lift (to_datetime (column "timestamp" df_ethics));
    let sorted := sort_values (keyed_rows ts df_ethics) in
    st_subheader "Ethical Score Over Time";;
    st_line_chart (chart_of (columns df_ethics) sorted).

(** "Display trend analysis summary" *)
Definition trend_summary_part (ethics_data : json) : M unit :=
  trend_summary ← lift (py_get ethics_data "trend_analysis" (JObj []));
  if truthy trend_summary then
    st_subheader "Trend Analysis Summary";;
    st_columns 2;;
    direction ← lift (py_get trend_summary "current_trend_direction" (JStr "N/A"));
    st_metric "Current Trend Direction" direction;;
    score ← lift (py_get trend_summary "short_term_avg_score_t_weighted" (JInt 0));
    formatted ← lift (format_2f score);
    st_metric "Short-term Avg Score (Time-Weighted)" (JStr formatted)
  else
    st_info "No trend analysis summary available in the data.".

(** "Prepare data for charting", to the end of the page. *)
Definition chart_part (ethics_data : json) : M unit :=
  events ← lift (py_getitem ethics_data "ethical_events");
  if negb (truthy events) then
    st_info "No ethical events recorded to display."
  else
    try_except (ethics_chart events)
      (λ e, st_error ("An error occurred while preparing data for the chart: "
                      +:+ exn_msg e)).

Definition ethical_trends_page : M unit :=
  st_title "Ethical Trends Analysis";;
  ethics_data ← load_ethics_db SOPHIA_ETHICS_DB_PATH;
  no_data ←
    (if negb (truthy ethics_data) then mret true
     else
       events ← lift (py_get ethics_data "ethical_events" JNull);
       mret (negb (truthy events)));
  if (no_data : bool) then
    st_warning "No ethical events data loaded or data is empty. Cannot display trends."
  else
    trend_summary_part ethics_data;;
    chart_part ethics_data.

(** [not kg_data or ("nodes" not in kg_data and "edges" not in kg_data)] *)
Definition kg_load_failed (kg_data : json) : bool :=
  negb (truthy kg_data)
  || (negb (has_key "nodes" kg_data) && negb (has_key "edges" kg_data)).

(** The page from [num_nodes = ...] on, once the data passed the check. *)
Definition kg_overview (kg_data : json) : M unit :=
  nodes ← lift (py_get kg_data "nodes" (JArr []));
  num_nodes ← lift (py_len nodes);
  edges ← lift (py_get kg_data "edges" (JArr []));
  num_edges ← lift (py_len edges);
  st_subheader "Graph Overview";;
  st_columns 2;;
  st_metric "Total Nodes" (JInt (Z.of_nat num_nodes));;
  st_metric "Total Edges" (JInt (Z.of_nat num_edges));;
  was_error ←
    (if (num_nodes =? 0)%nat && (num_edges =? 0)%nat then
       again ← load_knowledge_graph SOPHIA_KG_PATH;
       mret (negb (truthy again))
     else mret false);
  (if (was_error : bool) then
     st_info "Consider checking file paths or content if you expected data."
   else mret ());;
  st_subheader "Visualization";;
  st_text_area "Graph Visualization Placeholder"
    ("Interactive graph visualization and browsing capabilities will be implemented here in a future update. "
     +:+ "Libraries like Streamlit Agraph, Pyvis, or Plotly could be used.")
    100.

Definition knowledge_graph_explorer_page : M unit :=
  st_title "Knowledge Graph Explorer";;
  kg_data ← load_knowledge_graph SOPHIA_KG_PATH;
  if kg_load_failed kg_data then
    st_warning "Knowledge graph data could not be loaded or is empty."
  else kg_overview kg_data.

Definition system_event_log_viewer_page : M unit :=
  st_title "System Event Log Viewer";;
  log_entries ← load_system_event_log SOPHIA_SYSTEM_LOG_PATH;
  if negb (truthy (JArr log_entries)) then
    st_warning "No system event log data loaded or the log is empty."
  else
    st_subheader ("Last " +:+ pretty NUM_LOG_ENTRIES_DISPLAY +:+ " Log Entries");;
    (if isinstance_list (JArr log_entries) && (0 <? length log_entries)%nat then
       df_logs ← lift (pd_DataFrame (JArr log_entries));
       st_dataframe (tail NUM_LOG_ENTRIES_DISPLAY df_logs) 300
     else
       st_info "Log data is not in the expected list format or is empty.");;
    st_subheader "Future Enhancements";;
    st_text_area "Filtering and Searching Placeholder"
      ("Future versions of this tool will include capabilities to filter logs by severity (INFO, WARNING, ERROR), "
       +:+ "search by keywords, and select date ranges.")
      100.

Inductive page_name := EthicalTrends | KnowledgeGraphExplorer | SystemEventLogViewer.

Definition page_label (p : page_name) : string :=
  match p with
  | EthicalTrends => "Ethical Trends"
  | KnowledgeGraphExplorer => "Knowledge Graph Explorer"
  | SystemEventLogViewer => "System Event Log Viewer"
  end.

Definition page_options (p : page_name) : M unit :=
  match p with
  | EthicalTrends => ethical_trends_page
  | KnowledgeGraphExplorer => knowledge_graph_explorer_page
  | SystemEventLogViewer => system_event_log_viewer_page
  end.

(** [main], for the page the user selected in the sidebar. *)
Definition main (selected_page : page_name) : M unit :=
  emit (PageConfig "Sophia Toolkit" "wide");;
  emit (SidebarTitle "Sophia Toolkit Navigation");;
  emit (SidebarRadio "Go to"
          (page_label <$> [EthicalTrends; KnowledgeGraphExplorer; SystemEventLogViewer]));;
  page_options selected_page.

End app.

(** ** Reference implementations of the two libraries

    Enough of [json.loads] and of [pd.to_datetime] to run the loaders
    and the pages on concrete files: the JSON grammar as Python reads
    it (including [NaN] and [Infinity]; duplicate keys keep the last
    value), and timestamps of the form [YYYY-MM-DDTHH:MM:SSZ]. *)

Module Reference.

Inductive res (A : Type) : Type :=
| Ok (a : A) (rest : list ascii)
| Bad
| Unsupported.
Arguments Ok {A} a rest.
Arguments Bad {A}.
Arguments Unsupported {A}.

Definition quote : ascii := ascii_of_nat 34.

Definition is_ws (c : ascii) : bool :=
  let n := nat_of_ascii c in ((n =? 32) || (n =? 9) || (n =? 10) || (n =? 13))%nat.

Fixpoint skip_ws (s : list ascii) : list ascii :=
  match s with
  | c :: rest => if is_ws c then skip_ws rest else s
  | [] => []
  end.

Definition digit_of (c : ascii) : option Z :=
  let n := nat_of_ascii c in
  if ((48 <=? n) && (n <=? 57))%nat then Some (Z.of_nat n - 48) else None.

(** Reads a run of digits: the digits read so far as a number, how many
    were read, and the rest. *)
Fixpoint digits (s : list ascii) (acc : Z) (count : Z) : Z * Z * list ascii :=
  match s with
  | c :: rest =>
      match digit_of c with
      | Some d => digits rest (10 * acc + d) (count + 1)
      | None => (acc, count, s)
      end
  | [] => (acc, count, [])
  end.

(** The double nearest to [m * 10^e], ties to even. *)
Definition float_of_decimal (negative : bool) (m e : Z) : spec_float :=
  let sign (x : Z) := if negative then - x else x in
  if m =? 0 then S754_zero negative
  else if 0 <=? e then binary_normalize 53 1024 (sign (m * 10 ^ e)) 0 false
  else
    let d := 10 ^ (- e) in
    let shift := Z.max 0 (64 + Z.log2 d - Z.log2 m) in
    let q := (m * 2 ^ shift) / d in
    let sticky := if (m * 2 ^ shift) mod d =? 0 then 0 else 1 in
    binary_normalize 53 1024 (sign (2 * q + sticky)) (- shift - 1) false.

Definition starts_with (prefix : string) (s : list ascii) : option (list ascii) :=
  let p := list_ascii_of_string prefix in
  if decide (take (length p) s = p) then Some (drop (length p) s) else None.

(** A number, after its optional minus sign was read. *)
Definition parse_number (negative : bool) (s : list ascii) : res json :=
  let '(int_part, int_count, rest) := digits s 0 0 in
  let leading_zero := match s with c :: _ => Ascii.eqb c "0" | [] => false end in
  if (int_count =? 0) then Bad
  else
    let rest := if leading_zero then drop 1 s else rest in
    let int_part := if leading_zero then 0 else int_part in
    let '(mant, frac_count, has_frac, rest1) :=
      match rest with
      | "."%char :: r =>
          let '(m, n, r') := digits r int_part 0 in
          if n =? 0 then (int_part, 0, false, rest) else (m, n, true, r')
      | _ => (int_part, 0, false, rest)
      end in
    let '(exponent, has_exp, rest2) :=
      match rest1 with
      | c :: r =>
          if Ascii.eqb c "e" || Ascii.eqb c "E" then
            let '(neg_exp, r1) :=
              match r with
              | "-"%char :: r1 => (true, r1)
              | "+"%char :: r1 => (false, r1)
              | _ => (false, r)
              end in
            let '(x, n, r2) := digits r1 0 0 in
            if n =? 0 then (0, false, rest1)
            else ((if neg_exp then - x else x), true, r2)
          else (0, false, rest1)
      | [] => (0, false, rest1)
      end in
    if has_frac || has_exp then
      Ok (JFloat (float_of_decimal negative mant (exponent - frac_count))) rest2
    else Ok (JInt (if negative then - mant else mant)) rest2.

Definition hex_of (c : ascii) : option N :=
  let n := N_of_ascii c in
  if ((48 <=? n) && (n <=? 57))%N then Some (n - 48)%N
  else if ((97 <=? n) && (n <=? 102))%N then Some (n - 87)%N
  else if ((65 <=? n) && (n <=? 70))%N then Some (n - 55)%N
  else None.

(** The characters of a string literal, after its opening quote.  An
    escape for a code point above 255 is outside the modelled text. *)
Fixpoint parse_chars (s : list ascii) (acc : list ascii) : res string :=
  match s with
  | [] => Bad
  | c :: rest =>
      if Ascii.eqb c quote then Ok (string_of_list_ascii (rev acc)) rest
      else if (N_of_ascii c <? 32)%N then Bad
      else if Ascii.eqb c "\" then
        match rest with
        | e :: rest' =>
            let simple (x : ascii) := parse_chars rest' (x :: acc) in
            if Ascii.eqb e quote then simple quote
            else if Ascii.eqb e "\" then simple "\"%char
            else if Ascii.eqb e "/" then simple "/"%char
            else if Ascii.eqb e "b" then simple (ascii_of_nat 8)
            else if Ascii.eqb e "f" then simple (ascii_of_nat 12)
            else if Ascii.eqb e "n" then simple (ascii_of_nat 10)
            else if Ascii.eqb e "r" then simple (ascii_of_nat 13)
            else if Ascii.eqb e "t" then simple (ascii_of_nat 9)
            else if Ascii.eqb e "u" then
              match rest' with
              | h1 :: h2 :: h3 :: h4 :: rest'' =>
                  match hex_of h1, hex_of h2, hex_of h3, hex_of h4 with
                  | Some a, Some b, Some c', Some d =>
                      if ((a =? 0) && (b =? 0))%N then
                        parse_chars rest'' (ascii_of_N (16 * c' + d) :: acc)
                      else Unsupported
                  | _, _, _, _ => Bad
                  end
              | _ => Bad
              end
            else Bad
        | [] => Bad
        end
      else parse_chars rest (c :: acc)
  end.

(** [d[k] = v] while a dict literal is read. *)
Fixpoint dict_set (fields : list (string * json)) (k : string) (v : json)
    : list (string * json) :=
  match fields with
  | [] => [(k, v)]
  | (k', v') :: rest =>
      if String.eqb k k' then (k', v) :: rest else (k', v') :: dict_set rest k v
  end.

Inductive mode :=
| Value
| Items (acc : list json)
| Members (acc : list (string * json)).

Definition nan_sign (negative : bool) (c : ascii) (rest : list ascii) : res json :=
  match starts_with "Infinity" (c :: rest) with
  | Some r => Ok (JFloat (S754_infinity negative)) r
  | None => if negative then parse_number true (c :: rest) else Bad
  end.

Fixpoint parse (fuel : nat) (m : mode) (s : list ascii) : res json :=
  match fuel with
  | O => Unsupported
  | S fuel' =>
      match m with
      | Value =>
          match skip_ws s with
          | [] => Bad
          | c :: rest =>
              if Ascii.eqb c "[" then
                match skip_ws rest with
                | "]"%char :: r => Ok (JArr []) r
                | _ => parse fuel' (Items []) rest
                end
              else if Ascii.eqb c "{" then
                match skip_ws rest with
                | "}"%char :: r => Ok (JObj []) r
                | _ => parse fuel' (Members []) rest
                end
              else if Ascii.eqb c quote then
                match parse_chars rest [] with
                | Ok str r => Ok (JStr str) r
                | Bad => Bad
                | Unsupported => Unsupported
                end
              else if Ascii.eqb c "-" then
                match rest with
                | c' :: rest' => nan_sign true c' rest'
                | [] => Bad
                end
              else
                match starts_with "null" (c :: rest), starts_with "true" (c :: rest),
                      starts_with "false" (c :: rest), starts_with "NaN" (c :: rest),
                      starts_with "Infinity" (c :: rest) with
                | Some r, _, _, _, _ => Ok JNull r
                | _, Some r, _, _, _ => Ok (JBool true) r
                | _, _, Some r, _, _ => Ok (JBool false) r
                | _, _, _, Some r, _ => Ok (JFloat S754_nan) r
                | _, _, _, _, Some r => Ok (JFloat (S754_infinity false)) r
                | _, _, _, _, _ => parse_number false (c :: rest)
                end
          end
      | Items acc =>
          match parse fuel' Value s with
          | Ok v r =>
              match skip_ws r with
              | ","%char :: r' => parse fuel' (Items (acc ++ [v])%list) r'
              | "]"%char :: r' => Ok (JArr (acc ++ [v])%list) r'
              | _ => Bad
              end
          | other => other
          end
      | Members acc =>
          match skip_ws s with
          | c :: r =>
              if negb (Ascii.eqb c quote) then Bad
              else
                match parse_chars r [] with
                | Ok k r1 =>
                    match skip_ws r1 with
                    | ":"%char :: r2 =>
                        match parse fuel' Value r2 with
                        | Ok v r3 =>
                            match skip_ws r3 with
                            | ","%char :: r4 => parse fuel' (Members (dict_set acc k v)) r4
                            | "}"%char :: r4 => Ok (JObj (dict_set acc k v)) r4
                            | _ => Bad
                            end
                        | other => other
                        end
                    | _ => Bad
                    end
                | Bad => Bad
                | Unsupported => Unsupported
                end
          | [] => Bad
          end
      end
  end.

Definition loads (text : string) : parse_outcome :=
  let s := list_ascii_of_string text in
  match parse (2 * length s + 2) Value s with
  | Ok v rest =>
      match skip_ws rest with
      | [] => Parsed v
      | _ => Malformed "Extra data"
      end
  | Bad => Malformed "Expecting value"
  | Unsupported => ParserFault "outside the modelled text"
  end.

#[global] Instance json_ref : JsonLib := {| json_loads := loads |}.

(** Days since 1970-01-01 of a date of the proleptic Gregorian calendar. *)
Definition days_from_civil (y m d : Z) : Z :=
  let y' := if m <=? 2 then y - 1 else y in
  let era := y' / 400 in
  let yoe := y' - era * 400 in
  let doy := (153 * (if 2 <? m then m - 3 else m + 9) + 2) / 5 + d - 1 in
  let doe := yoe * 365 + yoe / 4 - yoe / 100 + doy in
  era * 146097 + doe - 719468.

Definition number_at (s : list ascii) (start len : nat) : option Z :=
  let part := take len (drop start s) in
  match digits part 0 0 with
  | (n, count, []) => if count =? Z.of_nat len then Some n else None
  | _ => None
  end.

Definition char_at (s : list ascii) (i : nat) (c : ascii) : bool :=
  match s !! i with Some c' => Ascii.eqb c c' | None => false end.

(** Seconds since the epoch of [YYYY-MM-DDTHH:MM:SSZ]. *)
Definition parse_iso (text : string) : option Z :=
  let s := list_ascii_of_string text in
  if (length s =? 20)%nat && char_at s 4 "-" && char_at s 7 "-" && char_at s 10 "T"
     && char_at s 13 ":" && char_at s 16 ":" && char_at s 19 "Z" then
    y ← number_at s 0 4; m ← number_at s 5 2; d ← number_at s 8 2;
    hh ← number_at s 11 2; mm ← number_at s 14 2; ss ← number_at s 17 2;
    if (1 <=? m) && (m <=? 12) && (1 <=? d) && (d <=? 31)
       && (hh <? 24) && (mm <? 60) && (ss <? 60) then
      Some (days_from_civil y m d * 86400 + hh * 3600 + mm * 60 + ss)
    else None
  else None.

Definition datetime_of_cell (c : cell) : exc stamp :=
  match c with
  | None => Ret NaT
  | Some JNull => Ret NaT
  | Some (JStr s) =>
      match parse_iso s with
      | Some t => Ret (At t)
      | None => Raise (Exn OtherException "Unknown datetime string format")
      end
  | Some _ => Raise (Exn OtherException "cannot convert the input to a timestamp")
  end.

Fixpoint datetimes (col : list cell) : exc (list stamp) :=
  match col with
  | [] => Ret []
  | c :: rest =>
      match datetime_of_cell c with
      | Ret t =>
          match datetimes rest with
          | Ret ts => Ret (t :: ts)
          | Raise e => Raise e
          end
      | Raise e => Raise e
      end
  end.

Lemma datetimes_length (col : list cell) (ts : list stamp) :
  datetimes col = Ret ts → length ts = length col.
Proof.
  revert ts. induction col as [|c rest IH]; intros ts Hts; simpl in Hts.
  - by inversion Hts.
  - destruct (datetime_of_cell c); [|discriminate].
    destruct (datetimes rest) as [ts'|]; [|discriminate].
    inversion Hts; subst. simpl. f_equal. by apply IH.
Qed.

#[global] Instance pandas_ref : PandasLib := {|
  DataFrame_irregular := λ _,
    Raise (Exn OtherException "DataFrame constructor not properly called!");
  to_datetime := datetimes;
  to_datetime_length := datetimes_length
|}.

End Reference.

(** ** Vocabulary of the statements *)

Section vocabulary.
Context `{JsonLib}.

Definition content_of (n : node) : string :=
  match n with
  | Readable text => text
  | Unreadable text _ _ => text
  end.

(** The notices of the loaders are warnings and errors. *)
Definition is_diagnostic (x : widget) : bool :=
  match x with Warning _ | Error _ => true | _ => false end.

(** The schema check of the two document loaders. *)
Definition schema_ok (required : list string) (v : json) : bool :=
  isinstance_dict v && forallb (λ k, has_key k v) required.

(** The ways a document load fails: no file, a file that cannot be
    read, content that is not JSON, a parser that gives up, a value of
    the wrong shape. *)
Inductive load_failure (required : list string) (fs : gmap string node) (file_path : string) : Prop :=
| file_missing :
    fs !! file_path = None → load_failure required fs file_path
| file_unreadable text n msg :
    fs !! file_path = Some (Unreadable text n msg) →
    load_failure required fs file_path
| invalid_json text msg :
    fs !! file_path = Some (Readable text) →
    json_loads text = Malformed msg → load_failure required fs file_path
| parser_fault text msg :
    fs !! file_path = Some (Readable text) →
    json_loads text = ParserFault msg → load_failure required fs file_path
| wrong_schema text v :
    fs !! file_path = Some (Readable text) →
    json_loads text = Parsed v → schema_ok required v = false →
    load_failure required fs file_path.

(** A load that goes through: the file reads, parses, and the value
    passes the schema check. *)
Definition loads_document (required : list string) (fs : gmap string node) (file_path : string)
    (v : json) : Prop :=
  ∃ text, fs !! file_path = Some (Readable text)
          ∧ json_loads text = Parsed v ∧ schema_ok required v = true.

(** Non-blank lines on which the parser fails otherwise than by
    [JSONDecodeError]. *)
Definition faults (line : string) : bool :=
  negb (is_blank line)
  && match json_loads line with ParserFault _ => true | _ => false end.

(** The ways a log load fails as a whole. *)
Inductive log_failure (fs : gmap string node) (file_path : string) : Prop :=
| log_missing :
    fs !! file_path = None → log_failure fs file_path
| log_unreadable text n msg :
    fs !! file_path = Some (Unreadable text n msg) → log_failure fs file_path
| log_parser_fault text :
    fs !! file_path = Some (Readable text) →
    existsb faults (readlines text) = true → log_failure fs file_path.

(** The values of the lines that parse, in order. *)
Definition parsed_entries (lines : list string) : list json :=
  omap (λ line,
          if is_blank line then None
          else match json_loads line with Parsed v => Some v | _ => None end)
       lines.

(** The numbers of the non-blank lines that are not JSON, counting
    from [first]. *)
Fixpoint undecodable_lines (first : nat) (lines : list string) : list nat :=
  match lines with
  | [] => []
  | line :: rest =>
      let later := undecodable_lines (S first) rest in
      if is_blank line then later
      else match json_loads line with
           | Malformed _ => first :: later
           | _ => later
           end
  end.

(** The four conditions under which, by the letter of the
    specification of the ethics loader, the default is returned. *)
Inductive listed_failure (fs : gmap string node) (file_path : string) : Prop :=
| listed_missing :
    fs !! file_path = None → listed_failure fs file_path
| listed_invalid n msg :
    fs !! file_path = Some n → json_loads (content_of n) = Malformed msg →
    listed_failure fs file_path
| listed_not_mapping n v :
    fs !! file_path = Some n → json_loads (content_of n) = Parsed v →
    isinstance_dict v = false → listed_failure fs file_path
| listed_lacks_key n v :
    fs !! file_path = Some n → json_loads (content_of n) = Parsed v →
    has_key "ethical_events" v = false → listed_failure fs file_path.

(** [r.get(k)] of a record, as a cell: missing when the key is not there. *)
Definition field (k : string) (r : json) : cell := assoc k (record_fields r).

(** [len(kg_data.get(k, []))] *)
Definition len_of (kg_data : json) (k : string) : exc nat :=
  match py_get kg_data k (JArr []) with
  | Ret x => py_len x
  | Raise e => Raise e
  end.

(** Both counts of the graph are zero. *)
Definition empty_graph (kg_data : json) : bool :=
  match len_of kg_data "nodes", len_of kg_data "edges" with
  | Ret O, Ret O => true
  | _, _ => false
  end.

Definition is_metric (x : widget) : bool :=
  match x with Metric _ _ => true | _ => false end.

(** [m] leaves the files and the list of opened paths as they are, and
    shows only widgets that satisfy [P]. *)
Definition renders {A : Type} (P : widget → Prop) (m : M A) : Prop :=
  ∀ w, ∃ d, (m w).2 = World (files w) (opened w) (screen w ++ d) ∧ Forall P d.

(** What closes the log page. *)
Definition log_page_footer : list widget :=
  [Subheader "Future Enhancements";
   TextArea "Filtering and Searching Placeholder"
     ("Future versions of this tool will include capabilities to filter logs by severity (INFO, WARNING, ERROR), "
      +:+ "search by keywords, and select date ranges.")
     100].

(** The last [n] elements of a sequence. *)
Definition last_n {A : Type} (n : nat) (l : list A) : list A :=
  drop (length l - n) l.

End vocabulary.

(** ** Sample files

    The files of the self-test of [data_loader.py] and of the testable
    properties of the specification.  Single quotes stand for the double
    quotes of JSON and are replaced by [dq]. *)

Module Samples.

Fixpoint dq (s : string) : string :=
  match s with
  | EmptyString => EmptyString
  | String c rest =>
      String (if Ascii.eqb c "'" then Reference.quote else c) (dq rest)
  end.

Definition nl : string := String newline EmptyString.

Definition cr : string := String carriage_return EmptyString.

Definition ethics_without_trend : string :=
  dq "{'ethical_events': [{'timestamp':'2023-01-01T12:00:00Z','final_score':0.8}]}".

Definition dummy_ethics : string :=
  dq ("{'ethical_events': ["
      +:+ "{'timestamp': '2023-01-01T12:05:00Z', 'final_score': 0.7, 'description': 'Event B'}, "
      +:+ "{'timestamp': '2023-01-01T12:00:00Z', 'final_score': 0.8, 'description': 'Event A'}], "
      +:+ "'trend_analysis': {'current_trend_direction': 'stable', "
      +:+ "'short_term_avg_score_t_weighted': 0.75}}").

Definition ethics_with_bare_trend : string :=
  dq ("{'ethical_events': [{'timestamp':'2023-01-01T12:00:00Z','final_score':0.8}], "
      +:+ "'trend_analysis': {'window': 5}}").

Definition kg_one_node : string := dq "{'nodes':[{'id':'n1'}],'edges':[]}".

Definition dummy_log : string :=
  dq "{'timestamp': '2023-01-01T10:00:00Z', 'event_type': 'INFO', 'message': 'System started'}"
  +:+ nl +:+
  dq "{'timestamp': '2023-01-01T10:05:00Z', 'event_type': 'WARNING', 'message': 'Low disk space'}"
  +:+ nl +:+ "This is not a valid JSON line." +:+ nl +:+
  dq "{'timestamp': '2023-01-01T10:10:00Z', 'event_type': 'ERROR', 'message': 'Critical failure'}"
  +:+ nl.

(** A log of [n] entries, numbered from 1. *)
Definition numbered_log (n : nat) : string :=
  foldr (λ i rest, dq "{'seq': " +:+ pretty i +:+ "}" +:+ nl +:+ rest) ""
        (seq 1 n).

(** The integer literal made of [n] digits 1. *)
Definition ones (n : nat) : string :=
  foldr (λ _ rest, String "1" rest) "" (seq 0 n).

Definition host (fs : gmap string node) : world := World fs [] [].

End Samples.

(** ** More vocabulary *)

Section more_vocabulary.
Context `{JsonLib}.

(** The text is empty or ends with LF: its last line is complete, and
    text added after it starts a new line. *)
Fixpoint complete (text : string) : bool :=
  match text with
  | EmptyString => true
  | String c EmptyString => Ascii.eqb c newline
  | String _ rest => complete rest
  end.

Definition count_nonblank (lines : list string) : nat :=
  length (List.filter (λ line, negb (is_blank line)) lines).

(** The notice of a loader for an unexpected error. *)
Definition unexpected_error (file_path msg : string) : widget :=
  Error ("An unexpected error occurred while loading " +:+ file_path +:+ ": " +:+ msg).

(** The warnings for the lines of [lines] that are not JSON, the first
    of them being line [first] of the file. *)
Definition line_warnings (file_path : string) (first : nat) (lines : list string)
    : list widget :=
  (λ k, Warning (line_warning file_path k)) <$> undecodable_lines first lines.

(** What closes the knowledge graph page. *)
Definition kg_page_footer : list widget :=
  [Subheader "Visualization";
   TextArea "Graph Visualization Placeholder"
     ("Interactive graph visualization and browsing capabilities will be implemented here in a future update. "
      +:+ "Libraries like Streamlit Agraph, Pyvis, or Plotly could be used.")
     100].

Definition kg_hint : widget :=
  Info "Consider checking file paths or content if you expected data.".

Definition no_events_warning : widget :=
  Warning "No ethical events data loaded or data is empty. Cannot display trends.".

Definition no_log_warning : widget :=
  Warning "No system event log data loaded or the log is empty.".

(** A value [st.metric] takes. *)
Definition accepted_by_metric (v : json) : bool :=
  match v with JArr _ | JObj _ => false | _ => true end.

Definition log_format_info : widget :=
  Info "Log data is not in the expected list format or is empty.".

Definition chart_error (msg : string) : widget :=
  Error ("An error occurred while preparing data for the chart: " +:+ msg).

(** The load of the page's own file fails. *)
Definition page_load_fails (p : page_name) (fs : gmap string node) : Prop :=
  match p with
  | EthicalTrends => load_failure ["ethical_events"] fs SOPHIA_ETHICS_DB_PATH
  | KnowledgeGraphExplorer => load_failure ["nodes"; "edges"] fs SOPHIA_KG_PATH
  | SystemEventLogViewer => log_failure fs SOPHIA_SYSTEM_LOG_PATH
  end.

End more_vocabulary.

(** A parser that gives up with RecursionError beyond a nesting depth,
    as CPython's does; below it, the reference parser. *)

Module Limited.

(** The deepest nesting of brackets and braces outside string literals. *)
Fixpoint depth (s : list ascii) (in_string : bool) (level deepest : nat) : nat :=
  match s with
  | [] => deepest
  | c :: rest =>
      if in_string then
        if Ascii.eqb c "\" then
          match rest with
          | _ :: rest' => depth rest' true level deepest
          | [] => deepest
          end
        else depth rest (negb (Ascii.eqb c Reference.quote)) level deepest
      else if Ascii.eqb c Reference.quote then depth rest true level deepest
      else if Ascii.eqb c "[" || Ascii.eqb c "{" then
        depth rest false (S level) (Nat.max deepest (S level))
      else if Ascii.eqb c "]" || Ascii.eqb c "}" then
        depth rest false (Nat.pred level) deepest
      else depth rest false level deepest
  end.

Definition loads (limit : nat) (text : string) : parse_outcome :=
  if (limit <? depth (list_ascii_of_string text) false 0 0)%nat then
    ParserFault "maximum recursion depth exceeded while decoding a JSON array"
  else Reference.loads text.

Definition json_limited (limit : nat) : JsonLib := {| json_loads := loads limit |}.

End Limited.

(** A parser that gives up with ValueError on a text with an integer
    literal of more than 4300 digits, as CPython's does when it comes
    to one (the limit of [int] on the length of a decimal string);
    without one, the reference parser. *)

Module IntLimit.

Definition is_digit (c : ascii) : bool :=
  match Reference.digit_of c with Some _ => true | None => false end.

(** The characters a JSON number is written with, besides digits. *)
Definition is_number_mark (c : ascii) : bool :=
  Ascii.eqb c "-" || Ascii.eqb c "+" || Ascii.eqb c "."
  || Ascii.eqb c "e" || Ascii.eqb c "E".

(** The number of digits of the first integer literal, outside string
    literals, that has more than 4300 of them.  [count] is the number
    of digits of the number being read, [is_int] tells that no [.], [e]
    or [E] has occurred in it: with one of these the literal is a
    float, which has no such limit. *)
Fixpoint long_int (s : list ascii) (in_string : bool) (count : nat) (is_int : bool)
    : option nat :=
  match s with
  | [] => if is_int && (4300 <? count)%nat then Some count else None
  | c :: rest =>
      if in_string then
        if Ascii.eqb c "\" then
          match rest with
          | _ :: rest' => long_int rest' true 0 true
          | [] => None
          end
        else long_int rest (negb (Ascii.eqb c Reference.quote)) 0 true
      else if is_digit c then long_int rest false (S count) is_int
      else if is_number_mark c then
        long_int rest false count (is_int && (Ascii.eqb c "-" || Ascii.eqb c "+"))
      else if is_int && (4300 <? count)%nat then Some count
      else long_int rest (Ascii.eqb c Reference.quote) 0 true
  end.

Definition limit_message (n : nat) : string :=
  "Exceeds the limit (4300 digits) for integer string conversion: value has "
  +:+ pretty n
  +:+ " digits; use sys.set_int_max_str_digits() to increase the limit".

Definition loads (text : string) : parse_outcome :=
  match long_int (list_ascii_of_string text) false 0 true with
  | Some n => ParserFault (limit_message n)
  | None => Reference.loads text
  end.

Definition json_int_limit : JsonLib := {| json_loads := loads |}.

End IntLimit.

(** ** Properties of the loaders *)

Section loader_properties.
Context `{JsonLib}.

Lemma world_eta (w : world) : World (files w) (opened w) (screen w ++ []) = w.
Proof. destruct w; simpl. by rewrite app_nil_r. Qed.

(** One call of [json_load] is one [open], and shows nothing. *)
Lemma json_load_run (file_path : string) (w : world) :
  json_load file_path w =
  (match files w !! file_path with
   | None => Raise (Exn FileNotFoundError
                      ("[Errno 2] No such file or directory: '" +:+ file_path +:+ "'"))
   | Some (Readable text) => outcome_exc (json_loads text)
   | Some (Unreadable _ _ msg) => Raise (Exn OtherException msg)
   end,
   World (files w) (opened w ++ [file_path]) (screen w)).
Proof.
  unfold json_load, mbind, M_bind, py_open, lift.
  by destruct (files w !! file_path) as [[text|text n msg]|].
Qed.

(** What a document loader does, in one equation: it returns the
    parsed value when the load goes through and the default otherwise,
    opens the file once, leaves the files alone, and shows at most one
    diagnostic. *)
Lemma load_ethics_db_run (file_path : string) (w : world) :
  ∃ v d, load_ethics_db file_path w =
           (Ret v, World (files w) (opened w ++ [file_path]) (screen w ++ d))
         ∧ (loads_document ["ethical_events"] (files w) file_path v ∧ d = []
            ∨ load_failure ["ethical_events"] (files w) file_path
              ∧ v = default_ethics_db ∧ ∃ x, d = [x] ∧ is_diagnostic x = true).
Proof.
  unfold load_ethics_db, try_except, mbind, M_bind. rewrite json_load_run.
  destruct (files w !! file_path) as [[text|text n msg]|] eqn:Hf; simpl.
  - destruct (json_loads text) as [v|msg|msg] eqn:Hp; simpl.
    + destruct (isinstance_dict v) eqn:Hd; simpl.
      * destruct (has_key "ethical_events" v) eqn:Hk; simpl.
        -- exists v, []. rewrite app_nil_r. split; [done|]. left. split; [|done].
           exists text. unfold schema_ok. simpl. by rewrite Hd, Hk.
        -- eexists _, _. split; [done|]. right. split; [|eauto].
           eapply wrong_schema; eauto. unfold schema_ok. simpl. by rewrite Hd, Hk.
      * eexists _, _. split; [done|]. right. split; [|eauto].
        eapply wrong_schema; eauto. unfold schema_ok. by rewrite Hd.
    + eexists _, _. split; [done|]. right. split; [|eauto]. eapply invalid_json; eauto.
    + eexists _, _. split; [done|]. right. split; [|eauto]. eapply parser_fault; eauto.
  - eexists _, _. split; [done|]. right. split; [|eauto]. eapply file_unreadable; eauto.
  - eexists _, _. split; [done|]. right. split; [|eauto]. by apply file_missing.
Qed.

Lemma load_knowledge_graph_run (file_path : string) (w : world) :
  ∃ v d, load_knowledge_graph file_path w =
           (Ret v, World (files w) (opened w ++ [file_path]) (screen w ++ d))
         ∧ (loads_document ["nodes"; "edges"] (files w) file_path v ∧ d = []
            ∨ load_failure ["nodes"; "edges"] (files w) file_path
              ∧ v = default_knowledge_graph ∧ ∃ x, d = [x] ∧ is_diagnostic x = true).
Proof.
  unfold load_knowledge_graph, try_except, mbind, M_bind. rewrite json_load_run.
  destruct (files w !! file_path) as [[text|text n msg]|] eqn:Hf; simpl.
  - destruct (json_loads text) as [v|msg|msg] eqn:Hp; simpl.
    + destruct (schema_ok ["nodes"; "edges"] v) eqn:Hs.
      * exists v, []. rewrite app_nil_r.
        assert (Hs' := Hs). unfold schema_ok in Hs; simpl in Hs.
        destruct (isinstance_dict v), (has_key "nodes" v), (has_key "edges" v);
          try discriminate Hs; simpl.
        split; [done|]. left. split; [|done]. by exists text.
      * exists default_knowledge_graph. eexists.
        assert (Hs' := Hs). unfold schema_ok in Hs; simpl in Hs.
        destruct (isinstance_dict v), (has_key "nodes" v), (has_key "edges" v);
          try discriminate Hs; simpl;
          (split; [done|]; right; split; [eapply wrong_schema; eauto | eauto]).
    + eexists _, _. split; [done|]. right. split; [|eauto]. eapply invalid_json; eauto.
    + eexists _, _. split; [done|]. right. split; [|eauto]. eapply parser_fault; eauto.
  - eexists _, _. split; [done|]. right. split; [|eauto]. eapply file_unreadable; eauto.
  - eexists _, _. split; [done|]. right. split; [|eauto]. by apply file_missing.
Qed.

(** A load goes through or fails, never both. *)
Lemma load_failure_not_loads (required : list string) (fs : gmap string node)
    (file_path : string) (v : json) :
  load_failure required fs file_path → ¬ loads_document required fs file_path v.
Proof.
  intros Hfail (text & Hf & Hp & Hs).
  destruct Hfail as [Hf'|? ? ? Hf'|? ? Hf' Hp'|? ? Hf' Hp'|? ? Hf' Hp' Hs'];
    simplify_eq; congruence.
Qed.

Lemma loads_document_unique (required : list string) (fs : gmap string node)
    (file_path : string) (v v' : json) :
  loads_document required fs file_path v → loads_document required fs file_path v' → v = v'.
Proof. intros (t & Hf & Hp & _) (t' & Hf' & Hp' & _). simplify_eq. congruence. Qed.

(** The loop over the lines touches neither the files nor the list of
    opened paths, and what it returns and shows does not depend on what
    was shown before; when it raises, it is not with [JSONDecodeError]
    nor with [FileNotFoundError]. *)
Lemma log_loop_run (file_path : string) (lines : list string) :
  ∀ (line_number : nat) (log_entries : list json),
  ∃ r d, (∀ w, log_loop file_path line_number lines log_entries w =
               (r, World (files w) (opened w) (screen w ++ d)))
         ∧ Forall (λ x, is_diagnostic x = true) d
         ∧ (∀ e, r = Raise e → exn_class_of e = OtherException).
Proof.
  induction lines as [|line rest IH]; intros n acc; simpl.
  - exists (Ret acc), []. split_and!; [|done..]. intros w. unfold mret, M_ret.
    by rewrite world_eta.
  - unfold mbind, M_bind, log_step, try_except, lift.
    destruct (is_blank line); simpl.
    + destruct (IH (S n) acc) as (r & d & Hrun & Hd & Hr).
      exists r, d. split_and!; [|done..]. intros w.
      unfold mret, M_ret. by rewrite Hrun.
    + destruct (json_loads line) as [v|msg|msg]; simpl.
      * destruct (IH (S n) (acc ++ [v])%list) as (r & d & Hrun & Hd & Hr).
        exists r, d. split_and!; [|done..]. intros w.
        unfold mret, M_ret. by rewrite Hrun.
      * destruct (IH (S n) acc) as (r & d & Hrun & Hd & Hr).
        exists r, (Warning (line_warning file_path n) :: d).
        split_and!; [|by constructor|done]. intros w.
        unfold st_warning, emit, mret, M_ret. simpl. rewrite Hrun. simpl.
        by rewrite <- app_assoc.
      * eexists (Raise _), []. split_and!; [|done|].
        -- intros w. unfold raise. by rewrite world_eta.
        -- by intros e [= <-].
Qed.

(** Without a faulting line the loop returns the parsed entries in
    order and warns once for each line that is not JSON. *)
Lemma log_loop_clean (file_path : string) (lines : list string) :
  existsb faults lines = false →
  ∀ (line_number : nat) (log_entries : list json) (w : world),
    log_loop file_path line_number lines log_entries w =
    (Ret (log_entries ++ parsed_entries lines)%list,
     World (files w) (opened w)
           (screen w ++ ((λ k, Warning (line_warning file_path k)) <$>
                            undecodable_lines line_number lines))).
Proof.
  induction lines as [|line rest IH]; intros Hclean n acc w; simpl.
  - unfold mret, M_ret. by rewrite app_nil_r, world_eta.
  - simpl in Hclean. apply orb_false_iff in Hclean as [Hline Hrest].
    unfold faults in Hline. unfold parsed_entries. simpl.
    unfold mbind, M_bind, log_step, try_except, lift.
    destruct (is_blank line); simpl.
    + unfold mret, M_ret. by rewrite IH.
    + destruct (json_loads line) as [v|msg|msg]; simpl; [| |done].
      * unfold mret, M_ret. rewrite IH by done. simpl.
        by rewrite <- app_assoc.
      * unfold st_warning, emit, mret, M_ret. simpl. rewrite IH by done. simpl.
        by rewrite <- app_assoc.
Qed.

(** A faulting line ends the loop with an exception that is neither
    [JSONDecodeError] nor [FileNotFoundError]. *)
Lemma log_loop_fault (file_path : string) (lines : list string) :
  existsb faults lines = true →
  ∀ (line_number : nat) (log_entries : list json),
  ∃ msg d, Forall (λ x, is_diagnostic x = true) d ∧ ∀ w,
    log_loop file_path line_number lines log_entries w =
    (Raise (Exn OtherException msg), World (files w) (opened w) (screen w ++ d)).
Proof.
  induction lines as [|line rest IH]; intros Hfault n acc; simpl in *; [done|].
  unfold mbind, M_bind, log_step, try_except, lift, faults in *.
  destruct (is_blank line); simpl in *.
  - destruct (IH Hfault (S n) acc) as (msg & d & Hd & Hrun).
    exists msg, d. split; [done|]. intros w. unfold mret, M_ret. by rewrite Hrun.
  - destruct (json_loads line) as [v|msg|msg]; simpl in *.
    + destruct (IH Hfault (S n) (acc ++ [v])%list) as (msg & d & Hd & Hrun).
      exists msg, d. split; [done|]. intros w. unfold mret, M_ret. by rewrite Hrun.
    + destruct (IH Hfault (S n) acc) as (msg' & d & Hd & Hrun).
      exists msg', (Warning (line_warning file_path n) :: d).
      split; [by constructor|]. intros w.
      unfold st_warning, emit, mret, M_ret. simpl. rewrite Hrun. simpl.
      by rewrite <- app_assoc.
    + exists msg, []. split; [done|]. intros w. unfold raise. by rewrite world_eta.
Qed.

(** What the log loader does, in one equation. *)
Lemma load_system_event_log_run (file_path : string) (w : world) :
  ∃ l d, load_system_event_log file_path w =
           (Ret l, World (files w) (opened w ++ [file_path]) (screen w ++ d))
         ∧ Forall (λ x, is_diagnostic x = true) d
         ∧ ((∃ text, files w !! file_path = Some (Readable text)
                     ∧ existsb faults (readlines text) = false
                     ∧ l = parsed_entries (readlines text)
                     ∧ d = ((λ k, Warning (line_warning file_path k)) <$>
                               undecodable_lines 1 (readlines text)))
            ∨ log_failure (files w) file_path ∧ l = []).
Proof.
  unfold load_system_event_log, try_except, mbind, M_bind, py_open.
  destruct (files w !! file_path) as [[text|text k msg]|] eqn:Hf; simpl.
  - destruct (existsb faults (readlines text)) eqn:Hfaults.
    + destruct (log_loop_fault file_path _ Hfaults 1%nat []) as (msg & d & Hd & Hrun).
      rewrite Hrun. simpl. eexists [], _. unfold st_error, emit, mret, M_ret. simpl.
      rewrite <- app_assoc. split; [done|]. split.
      * apply Forall_app. split; [done|]. by repeat constructor.
      * right. split; [|done]. by eapply log_parser_fault.
    + rewrite (log_loop_clean file_path _ Hfaults). simpl.
      unfold mret, M_ret. eexists _, _. split; [done|]. split.
      * apply Forall_forall. intros x Hx. apply list_elem_of_fmap in Hx as (? & -> & _).
        done.
      * left. by exists text.
  - destruct (log_loop_run file_path (take k (readlines text)) 1%nat [])
      as (r & d & Hrun & Hd & Hr).
    rewrite Hrun. destruct r as [l|e]; simpl.
    + unfold raise, st_error, emit, mret, M_ret. simpl.
      eexists [], _. rewrite <- app_assoc. split; [done|]. split.
      * apply Forall_app. split; [done|]. by repeat constructor.
      * right. split; [|done]. by eapply log_unreadable.
    + rewrite (Hr e eq_refl). unfold st_error, emit, mret, M_ret. simpl.
      eexists [], _. rewrite <- app_assoc. split; [done|]. split.
      * apply Forall_app. split; [done|]. by repeat constructor.
      * right. split; [|done]. by eapply log_unreadable.
  - eexists [], [_]. unfold st_error, emit, mret, M_ret. simpl. split; [done|]. split.
    + by repeat constructor.
    + right. split; [|done]. by apply log_missing.
Qed.

Lemma log_failure_not_clean (fs : gmap string node) (file_path text : string) :
  fs !! file_path = Some (Readable text) →
  existsb faults (readlines text) = false → ¬ log_failure fs file_path.
Proof. intros Hf Hclean [Hf'|? ? ? Hf'|? Hf' Hfault]; simplify_eq. congruence. Qed.

(** The loop over a clean run of lines, followed by more lines. *)
Lemma log_loop_clean_then (file_path : string) (pre rest : list string) :
  existsb faults pre = false →
  ∀ (first : nat) (acc : list json) (w : world),
    log_loop file_path first (pre ++ rest) acc w =
    log_loop file_path (first + length pre) rest (acc ++ parsed_entries pre)
      (World (files w) (opened w) (screen w ++ line_warnings file_path first pre)).
Proof.
  induction pre as [|line pre IH]; intros Hclean n acc w.
  - simpl. unfold line_warnings, parsed_entries. simpl.
    by rewrite Nat.add_0_r, world_eta, app_nil_r.
  - simpl in Hclean. apply orb_false_iff in Hclean as [Hline Hpre].
    unfold faults in Hline. unfold line_warnings, parsed_entries. simpl.
    unfold mbind, M_bind, log_step, try_except, lift.
    rewrite Nat.add_succ_r.
    destruct (is_blank line); simpl.
    + unfold mret, M_ret. by rewrite IH.
    + destruct (json_loads line) as [v|msg|msg]; simpl; [| |done].
      * unfold mret, M_ret. rewrite IH by done. simpl. by rewrite <- app_assoc.
      * unfold st_warning, emit, mret, M_ret. simpl. rewrite IH by done. simpl.
        unfold line_warnings. by rewrite <- app_assoc.
Qed.

(** Among lines of which one faults there is a first one that does. *)
Lemma first_fault (lines : list string) :
  existsb faults lines = true →
  ∃ pre bad post msg,
    lines = pre ++ bad :: post ∧ existsb faults pre = false
    ∧ is_blank bad = false ∧ json_loads bad = ParserFault msg.
Proof.
  induction lines as [|line rest IH]; [done|]. simpl.
  destruct (faults line) eqn:Hline; simpl.
  - intros _. unfold faults in Hline.
    destruct (is_blank line) eqn:Hblank; [done|].
    destruct (json_loads line) as [v|msg|msg] eqn:Hp; [done..|].
    by exists [], line, rest, msg.
  - intros (pre & bad & post & msg & -> & Hpre & Hbad & Hp)%IH.
    exists (line :: pre), bad, post, msg. simpl. by rewrite Hline, Hpre.
Qed.

(** The load of a readable log up to its first faulting line. *)
Lemma load_system_event_log_fault (file_path text : string) (pre post : list string)
    (bad msg : string) (w : world) :
  files w !! file_path = Some (Readable text) →
  readlines text = pre ++ bad :: post →
  existsb faults pre = false →
  is_blank bad = false →
  json_loads bad = ParserFault msg →
  load_system_event_log file_path w =
  (Ret [], World (files w) (opened w ++ [file_path])
                 (screen w ++ line_warnings file_path 1 pre
                  ++ [unexpected_error file_path msg])).
Proof.
  intros Hf Hlines Hpre Hbad Hfault.
  unfold load_system_event_log, try_except, mbind, M_bind, py_open.
  rewrite Hf. simpl. rewrite Hlines, (log_loop_clean_then _ _ _ Hpre). simpl.
  unfold mbind, M_bind, log_step, try_except, lift. rewrite Hbad, Hfault. simpl.
  unfold unexpected_error. by rewrite <- app_assoc.
Qed.

(** What a loader returns depends on the files only. *)
Lemma load_ethics_db_stable (file_path : string) (w w' : world) :
  files w' = files w →
  (load_ethics_db file_path w').1 = (load_ethics_db file_path w).1.
Proof.
  intros Hfs.
  destruct (load_ethics_db_run file_path w) as (v & d & -> & Hcase).
  destruct (load_ethics_db_run file_path w') as (v' & d' & -> & Hcase').
  simpl. f_equal. rewrite Hfs in Hcase'.
  destruct Hcase as [[Hok _]|(Hfail & -> & _)],
           Hcase' as [[Hok' _]|(Hfail' & -> & _)].
  - by eapply loads_document_unique.
  - by destruct (load_failure_not_loads _ _ _ _ Hfail' Hok).
  - by destruct (load_failure_not_loads _ _ _ _ Hfail Hok').
  - done.
Qed.

Lemma load_knowledge_graph_stable (file_path : string) (w w' : world) :
  files w' = files w →
  (load_knowledge_graph file_path w').1 = (load_knowledge_graph file_path w).1.
Proof.
  intros Hfs.
  destruct (load_knowledge_graph_run file_path w) as (v & d & -> & Hcase).
  destruct (load_knowledge_graph_run file_path w') as (v' & d' & -> & Hcase').
  simpl. f_equal. rewrite Hfs in Hcase'.
  destruct Hcase as [[Hok _]|(Hfail & -> & _)],
           Hcase' as [[Hok' _]|(Hfail' & -> & _)].
  - by eapply loads_document_unique.
  - by destruct (load_failure_not_loads _ _ _ _ Hfail' Hok).
  - by destruct (load_failure_not_loads _ _ _ _ Hfail Hok').
  - done.
Qed.

Lemma load_system_event_log_stable (file_path : string) (w w' : world) :
  files w' = files w →
  (load_system_event_log file_path w').1 = (load_system_event_log file_path w).1.
Proof.
  intros Hfs.
  destruct (load_system_event_log_run file_path w) as (l & d & -> & _ & Hcase).
  destruct (load_system_event_log_run file_path w') as (l' & d' & -> & _ & Hcase').
  simpl. f_equal. rewrite Hfs in Hcase'.
  destruct Hcase as [(text & Hf & Hclean & -> & _)|[Hfail ->]],
           Hcase' as [(text' & Hf' & Hclean' & -> & _)|[Hfail' ->]].
  - by simplify_eq.
  - by destruct (log_failure_not_clean _ _ _ Hf Hclean).
  - by destruct (log_failure_not_clean _ _ _ Hf' Hclean').
  - done.
Qed.

(** C1. Whatever the path and whatever is (or is not) behind it, each of
    the three loaders returns a value: no exception leaves it.  In every
    failure mode the value is the loader's default: the empty ethics
    database, the empty graph, the empty sequence. *)
Theorem loaders_never_raise (file_path : string) (w : world) :
  (∃ v, (load_ethics_db file_path w).1 = Ret v
        ∧ (load_failure ["ethical_events"] (files w) file_path → v = default_ethics_db))
  ∧ (∃ v, (load_knowledge_graph file_path w).1 = Ret v
          ∧ (load_failure ["nodes"; "edges"] (files w) file_path
             → v = default_knowledge_graph))
  ∧ (∃ l, (load_system_event_log file_path w).1 = Ret l
          ∧ (log_failure (files w) file_path → l = [])).
Proof.
  split_and!.
  - destruct (load_ethics_db_run file_path w) as (v & d & -> & Hcase).
    exists v. split; [done|]. intros Hfail.
    destruct Hcase as [[Hok _]|(_ & -> & _)]; [|done].
    by destruct (load_failure_not_loads _ _ _ _ Hfail Hok).
  - destruct (load_knowledge_graph_run file_path w) as (v & d & -> & Hcase).
    exists v. split; [done|]. intros Hfail.
    destruct Hcase as [[Hok _]|(_ & -> & _)]; [|done].
    by destruct (load_failure_not_loads _ _ _ _ Hfail Hok).
  - destruct (load_system_event_log_run file_path w) as (l & d & -> & _ & Hcase).
    exists l. split; [done|]. intros Hfail.
    destruct Hcase as [(text & Hf & Hclean & _)|[_ ->]]; [|done].
    by destruct (log_failure_not_clean _ _ _ Hf Hclean).
Qed.

(** C2, as amended.  [load_ethics_db] returns the default
    [{ethical_events: [], trend_analysis: {}}] in every failure mode:
    the file does not exist, it cannot be read, its content is not
    valid JSON, the parser fails in some other way, the parsed value is
    not a mapping, or the mapping lacks the key [ethical_events].  In
    every other case, that is when the file reads and parses to a
    mapping with that key, it returns the parsed mapping unchanged,
    whether [trend_analysis] is there or not.  These two cases are
    all there is. *)
Theorem load_ethics_db_cases (file_path : string) (w : world) :
  (load_failure ["ethical_events"] (files w) file_path
   → (load_ethics_db file_path w).1 = Ret default_ethics_db)
  ∧ (∀ v, loads_document ["ethical_events"] (files w) file_path v
          → (load_ethics_db file_path w).1 = Ret v)
  ∧ (load_failure ["ethical_events"] (files w) file_path
     ∨ ∃ v, loads_document ["ethical_events"] (files w) file_path v).
Proof.
  destruct (load_ethics_db_run file_path w) as (v & d & -> & Hcase). simpl.
  destruct Hcase as [[Hok _]|(Hfail & -> & _)].
  - split_and!; [|by intros v' <-%(loads_document_unique _ _ _ _ _ Hok)|eauto].
    intros Hfail. by destruct (load_failure_not_loads _ _ _ _ Hfail Hok).
  - split_and!; [done| |by left].
    intros v Hok. by destruct (load_failure_not_loads _ _ _ _ Hfail Hok).
Qed.

(** C3. [load_knowledge_graph] returns the parsed mapping unchanged when
    the file parses to a mapping that has both keys [nodes] and [edges];
    in every failure case (missing file, invalid JSON, a value that is
    not a mapping, either key absent, and any other failure) it returns
    the default [{nodes: [], edges: []}]. *)
Theorem load_knowledge_graph_cases (file_path : string) (w : world) :
  (∀ v, loads_document ["nodes"; "edges"] (files w) file_path v
        → (load_knowledge_graph file_path w).1 = Ret v)
  ∧ (load_failure ["nodes"; "edges"] (files w) file_path
     → (load_knowledge_graph file_path w).1 = Ret default_knowledge_graph).
Proof.
  destruct (load_knowledge_graph_run file_path w) as (v & d & -> & Hcase). simpl.
  destruct Hcase as [[Hok _]|(Hfail & -> & _)].
  - split; [by intros v' <-%(loads_document_unique _ _ _ _ _ Hok)|].
    intros Hfail. by destruct (load_failure_not_loads _ _ _ _ Hfail Hok).
  - split; [|done].
    intros v Hok. by destruct (load_failure_not_loads _ _ _ _ Hfail Hok).
Qed.

(** C4, as amended.  [load_system_event_log] parses each non-blank line
    of the file on its own.  A line on which [json.loads] raises
    [JSONDecodeError] is skipped with a warning that names its 1-based
    line number, and the lines after it are still read: when no line
    makes [json.loads] raise anything else, the values of the lines
    that parse are returned, in file order, and the warnings are all
    that is shown.  A line on which [json.loads] raises another
    exception ends the load: the empty sequence is returned, whatever
    was parsed before, and after the warnings for the lines before it
    the notice of an unexpected error is shown.  A readable file is in
    one of these two cases. *)
Theorem load_system_event_log_lines (file_path text : string) (w : world) :
  files w !! file_path = Some (Readable text) →
  (existsb faults (readlines text) = false →
   load_system_event_log file_path w =
   (Ret (parsed_entries (readlines text)),
    World (files w) (opened w ++ [file_path])
          (screen w ++ line_warnings file_path 1 (readlines text))))
  ∧ (∀ (pre post : list string) (bad msg : string),
       readlines text = pre ++ bad :: post →
       existsb faults pre = false →
       is_blank bad = false →
       json_loads bad = ParserFault msg →
       load_system_event_log file_path w =
       (Ret [], World (files w) (opened w ++ [file_path])
                      (screen w ++ line_warnings file_path 1 pre
                       ++ [unexpected_error file_path msg])))
  ∧ (existsb faults (readlines text) = true →
     ∃ (pre post : list string) (bad msg : string),
       readlines text = pre ++ bad :: post ∧ existsb faults pre = false
       ∧ is_blank bad = false ∧ json_loads bad = ParserFault msg).
Proof.
  intros Hf. split_and!.
  - intros Hclean.
    destruct (load_system_event_log_run file_path w) as (l & d & -> & _ & Hcase).
    destruct Hcase as [(text' & Hf' & _ & -> & ->)|[Hfail _]].
    + by simplify_eq.
    + by destruct (log_failure_not_clean _ _ _ Hf Hclean).
  - intros pre post bad msg. by apply load_system_event_log_fault.
  - intros (pre & bad & post & msg & ?)%first_fault. by exists pre, post, bad, msg.
Qed.

(** C9. Calling a loader twice on the same path gives the same value
    both times, and neither call changes the files. *)
Theorem loaders_deterministic (file_path : string) (w : world) :
  (let first := load_ethics_db file_path w in
   let second := load_ethics_db file_path first.2 in
   second.1 = first.1 ∧ files first.2 = files w ∧ files second.2 = files w)
  ∧ (let first := load_knowledge_graph file_path w in
     let second := load_knowledge_graph file_path first.2 in
     second.1 = first.1 ∧ files first.2 = files w ∧ files second.2 = files w)
  ∧ (let first := load_system_event_log file_path w in
     let second := load_system_event_log file_path first.2 in
     second.1 = first.1 ∧ files first.2 = files w ∧ files second.2 = files w).
Proof.
  split_and!; simpl.
  - assert (Hfs : ∀ w0, files (load_ethics_db file_path w0).2 = files w0).
    { intros w0. by destruct (load_ethics_db_run file_path w0) as (? & ? & -> & _). }
    split_and!; [apply load_ethics_db_stable| |rewrite Hfs]; apply Hfs.
  - assert (Hfs : ∀ w0, files (load_knowledge_graph file_path w0).2 = files w0).
    { intros w0. by destruct (load_knowledge_graph_run file_path w0) as (? & ? & -> & _). }
    split_and!; [apply load_knowledge_graph_stable| |rewrite Hfs]; apply Hfs.
  - assert (Hfs : ∀ w0, files (load_system_event_log file_path w0).2 = files w0).
    { intros w0.
      by destruct (load_system_event_log_run file_path w0) as (? & ? & -> & _). }
    split_and!; [apply load_system_event_log_stable| |rewrite Hfs]; apply Hfs.
Qed.

End loader_properties.

(** ** The loaders on the sample files *)

Section loader_samples.
Import Samples.

(** A path behind which there is nothing: each loader returns its default. *)
Lemma loaders_never_raise_witness :
  (load_ethics_db "non_existent_ethics.json" (host ∅)).1 = Ret default_ethics_db
  ∧ (load_knowledge_graph "non_existent_kg.json" (host ∅)).1 = Ret default_knowledge_graph
  ∧ (load_system_event_log "non_existent_log.log" (host ∅)).1 = Ret [].
Proof.
  destruct (loaders_never_raise "non_existent_ethics.json" (host ∅))
    as ((v & -> & Hv) & _ & _).
  destruct (loaders_never_raise "non_existent_kg.json" (host ∅))
    as (_ & (g & -> & Hg) & _).
  destruct (loaders_never_raise "non_existent_log.log" (host ∅))
    as (_ & _ & (l & -> & Hl)).
  rewrite Hv, Hg, Hl; [done| | |].
  - apply log_missing. reflexivity.
  - apply file_missing. reflexivity.
  - apply file_missing. reflexivity.
Defined.

(** The ethics file of the specification, without [trend_analysis],
    comes back as it was parsed. *)
Lemma load_ethics_db_cases_witness :
  let w := host {[ "ethics_db.json" := Readable ethics_without_trend ]} in
  let v := JObj [("ethical_events",
                  JArr [JObj [("timestamp", JStr "2023-01-01T12:00:00Z");
                              ("final_score",
                               JFloat (S754_finite false 7205759403792794 (-53)))]])] in
  (load_ethics_db "ethics_db.json" w).1 = Ret v
  ∧ has_key "trend_analysis" v = false.
Proof.
  intros w v. split; [|reflexivity].
  apply (proj1 (proj2 (load_ethics_db_cases "ethics_db.json" w))).
  exists ethics_without_trend. split_and!; vm_compute; reflexivity.
Defined.

(** C2, as stated, fails.  A file whose content is a valid mapping with
    the key [ethical_events], but which cannot be read (permission
    denied): none of the four listed conditions holds, and yet the
    default is returned, not the mapping. *)
Lemma load_ethics_db_default_beyond_listed :
  let fs : gmap string node :=
    {[ "ethics_db.json" :=
         Unreadable ethics_without_trend 0
                    "[Errno 13] Permission denied: 'ethics_db.json'" ]} in
  (load_ethics_db "ethics_db.json" (host fs)).1 = Ret default_ethics_db
  ∧ ¬ listed_failure fs "ethics_db.json"
  ∧ ∃ v, json_loads ethics_without_trend = Parsed v ∧ v ≠ default_ethics_db.
Proof.
  intros fs. split_and!.
  - vm_compute. reflexivity.
  - intros [Hf|n msg Hf Hp|n v Hf Hp Hd|n v Hf Hp Hk].
    + vm_compute in Hf. discriminate Hf.
    + apply lookup_singleton_Some in Hf as [_ <-]. vm_compute in Hp. discriminate Hp.
    + apply lookup_singleton_Some in Hf as [_ <-]. vm_compute in Hp.
      injection Hp as <-. discriminate Hd.
    + apply lookup_singleton_Some in Hf as [_ <-]. vm_compute in Hp.
      injection Hp as <-. vm_compute in Hk. discriminate Hk.
  - eexists. split; [vm_compute; reflexivity|]. discriminate.
Qed.

(** The graph file of the specification: one node, no edge. *)
Lemma load_knowledge_graph_cases_witness :
  let w := host {[ "kg.json" := Readable kg_one_node ]} in
  let v := JObj [("nodes", JArr [JObj [("id", JStr "n1")]]); ("edges", JArr [])] in
  (load_knowledge_graph "kg.json" w).1 = Ret v
  ∧ len_of v "nodes" = Ret 1%nat ∧ len_of v "edges" = Ret 0%nat
  ∧ (load_knowledge_graph "non_existent_kg.json" w).1 = Ret default_knowledge_graph.
Proof.
  intros w v. split_and!; [|reflexivity..|].
  - apply (proj1 (load_knowledge_graph_cases "kg.json" w)).
    exists kg_one_node. split_and!; vm_compute; reflexivity.
  - apply (proj2 (load_knowledge_graph_cases "non_existent_kg.json" w)).
    apply file_missing. reflexivity.
Defined.

(** The log of the self-test: four lines, the third one not JSON.
    Three entries come back, in file order, with one warning, for
    line 3.  The same log with a line of 4301 digits in place of the
    third, read with a parser that refuses such an integer: nothing
    comes back. *)
Lemma load_system_event_log_lines_witness :
  let w := host {[ "dummy_system_events.log" := Readable dummy_log ]} in
  let result := load_system_event_log "dummy_system_events.log" w in
  let faulty := dq "{'message': 'System started'}" +:+ nl +:+ ones 4301 +:+ nl
                +:+ dq "{'message': 'Critical failure'}" +:+ nl in
  (∃ l, result.1 = Ret l
        ∧ field "message" <$> l =
          [Some (JStr "System started"); Some (JStr "Low disk space");
           Some (JStr "Critical failure")])
  ∧ screen result.2 =
    [Warning ("Warning: Could not decode JSON from line 3 in "
              +:+ "dummy_system_events.log. Skipping line.")]
  ∧ (@load_system_event_log IntLimit.json_int_limit "dummy_system_events.log"
       (host {[ "dummy_system_events.log" := Readable faulty ]})).1 = Ret [].
Proof.
  intros w result faulty. unfold result.
  assert (files w !! "dummy_system_events.log" = Some (Readable dummy_log)) as Hf
    by (vm_compute; reflexivity).
  assert (files (host {[ "dummy_system_events.log" := Readable faulty ]})
          !! "dummy_system_events.log" = Some (Readable faulty)) as Hf'
    by (vm_compute; reflexivity).
  rewrite (proj1 (load_system_event_log_lines "dummy_system_events.log" dummy_log w Hf));
    [|vm_compute; reflexivity].
  rewrite (proj1 (proj2 (@load_system_event_log_lines IntLimit.json_int_limit
                           "dummy_system_events.log" faulty _ Hf'))
             [dq "{'message': 'System started'}" +:+ nl]
             [dq "{'message': 'Critical failure'}" +:+ nl]
             (ones 4301 +:+ nl)
             ("Exceeds the limit (4300 digits) for integer string conversion: "
              +:+ "value has 4301 digits; "
              +:+ "use sys.set_int_max_str_digits() to increase the limit"));
    [|vm_compute; reflexivity..].
  split_and!; [eexists; split; [reflexivity|]| |]; vm_compute; reflexivity.
Defined.

(** C4, as stated, fails.  A log of three lines, the second an integer
    of 4301 digits, read with a parser that refuses such an integer as
    CPython's does, with ValueError: the first and the third line
    parse, and the second fails to parse, yet it is not skipped with a
    warning for line 2 and the other two values are not returned; the
    result is the empty sequence, under the notice of an unexpected
    error. *)
Lemma log_line_beyond_int_limit_empties_result :
  let first := dq "{'message': 'System started'}" +:+ nl in
  let second := ones 4301 +:+ nl in
  let third := dq "{'message': 'Critical failure'}" +:+ nl in
  let w := host {[ "system_events.log" := Readable (first +:+ second +:+ third) ]} in
  @load_system_event_log IntLimit.json_int_limit "system_events.log" w =
  (Ret [],
   World (files w) ["system_events.log"]
         [Error ("An unexpected error occurred while loading system_events.log: "
                 +:+ "Exceeds the limit (4300 digits) for integer string conversion: "
                 +:+ "value has 4301 digits; "
                 +:+ "use sys.set_int_max_str_digits() to increase the limit")])
  ∧ IntLimit.loads first = Parsed (JObj [("message", JStr "System started")])
  ∧ (∃ msg, IntLimit.loads second = ParserFault msg)
  ∧ IntLimit.loads third = Parsed (JObj [("message", JStr "Critical failure")]).
Proof.
  intros first second third w. split_and!.
  - vm_compute. reflexivity.
  - vm_compute. reflexivity.
  - eexists. vm_compute. reflexivity.
  - vm_compute. reflexivity.
Qed.

End loader_samples.

(** ** Properties of frames *)

Section frame_properties.

Lemma assoc_is_Some (k : string) (fields : list (string * json)) :
  is_Some (assoc k fields) ↔ k ∈ fields.*1.
Proof.
  induction fields as [|[k' v] rest IH]; simpl.
  - split; [by intros [? ?]|by intros ?%elem_of_nil].
  - destruct (String.eqb_spec k k') as [->|Hne].
    + split; [intros _; apply list_elem_of_here|by eauto].
    + rewrite IH. split; [apply list_elem_of_further|].
      by intros [?|?]%elem_of_cons.
Qed.

Lemma has_key_fields (k : string) (v : json) :
  has_key k v = true ↔ k ∈ (record_fields v).*1.
Proof.
  rewrite <- assoc_is_Some. unfold has_key, record_fields.
  destruct v; simpl; try (split; [done|by intros [? ?]]).
  destruct (assoc k fields); split; eauto; try done.
Qed.

Lemma existsb_eqb (k : string) (cols : list string) :
  existsb (String.eqb k) cols = true ↔ k ∈ cols.
Proof.
  rewrite existsb_exists. split.
  - intros (c & Hc & ->%String.eqb_eq). by apply list_elem_of_In.
  - intros Hk. exists k. split; [by apply list_elem_of_In|apply String.eqb_refl].
Qed.

Lemma elem_of_add_key (k k' : string) (cols : list string) :
  k ∈ add_key cols k' ↔ k ∈ cols ∨ k = k'.
Proof.
  unfold add_key. destruct (existsb (String.eqb k') cols) eqn:Hin.
  - apply existsb_eqb in Hin. split; [by left|]. by intros [?| ->].
  - rewrite elem_of_app, list_elem_of_singleton. done.
Qed.

Lemma elem_of_fold_add_key (k : string) (ks cols : list string) :
  k ∈ fold_left add_key ks cols ↔ k ∈ cols ∨ k ∈ ks.
Proof.
  revert cols. induction ks as [|k' ks IH]; intros cols; simpl.
  - split; [by left|]. by intros [?|?%elem_of_nil].
  - rewrite IH, elem_of_add_key, elem_of_cons. tauto.
Qed.

Lemma elem_of_fold_records (k : string) (records : list json) (cols : list string) :
  k ∈ fold_left (λ cols r, fold_left add_key (record_fields r).*1 cols) records cols
  ↔ k ∈ cols ∨ ∃ r, r ∈ records ∧ k ∈ (record_fields r).*1.
Proof.
  revert cols. induction records as [|r rs IH]; intros cols; simpl.
  - split; [by left|]. by intros [?|(? & ?%elem_of_nil & _)].
  - rewrite IH, elem_of_fold_add_key. split.
    + intros [[?|?]|(r' & ? & ?)]; [by left|right..].
      * exists r. split; [apply list_elem_of_here|done].
      * exists r'. split; [by apply list_elem_of_further|done].
    + intros [?|(r' & [->|?]%elem_of_cons & ?)]; [by left; left|by left; right|].
      right. by exists r'.
Qed.

(** A key is a column of the frame exactly when some record has it. *)
Lemma elem_of_union_keys (k : string) (records : list json) :
  k ∈ union_keys records ↔ ∃ r, r ∈ records ∧ has_key k r = true.
Proof.
  unfold union_keys. rewrite elem_of_fold_records. split.
  - intros [?%elem_of_nil|(r & ? & ?%has_key_fields)]; [done|eauto].
  - intros (r & ? & ?%has_key_fields). right. eauto.
Qed.

Lemma has_column_frame_of_records (k : string) (records : list json) :
  has_column k (frame_of_records records) = existsb (has_key k) records.
Proof.
  unfold has_column, frame_of_records. simpl.
  apply eq_true_iff_eq. rewrite existsb_eqb, elem_of_union_keys, existsb_exists.
  split; intros (r & Hr & Hk); exists r; split; try done; by apply list_elem_of_In.
Qed.

Lemma position_elem_of (k : string) (cols : list string) :
  k ∈ cols → ∃ i, position k cols = Some i ∧ cols !! i = Some k.
Proof.
  induction cols as [|c rest IH]; simpl; [by intros ?%elem_of_nil|].
  intros Hk. destruct (String.eqb_spec k c) as [->|Hne].
  - by exists O.
  - apply elem_of_cons in Hk as [?|Hk]; [done|].
    destruct (IH Hk) as (i & -> & Hi). by exists (S i).
Qed.

(** The cell of a record under one of the columns is its field. *)
Lemma cell_at_row_of (cols : list string) (k : string) (r : json) :
  k ∈ cols → cell_at cols k (row_of cols r) = field k r.
Proof.
  intros (i & Hpos & Hi)%position_elem_of.
  unfold cell_at, row_of, field. rewrite Hpos, list_lookup_fmap, Hi. done.
Qed.

Lemma column_frame_of_records (k : string) (records : list json) :
  k ∈ union_keys records →
  column k (frame_of_records records) = field k <$> records.
Proof.
  intros Hk. unfold column, frame_of_records. simpl.
  rewrite <- list_fmap_compose. apply list_fmap_ext.
  intros _ r _. simpl. by apply cell_at_row_of.
Qed.

(** The last [n] rows of a frame built from records are the rows of the
    last [n] records, under their original labels. *)
Lemma tail_frame_of_records (n : nat) (records : list json) :
  tail n (frame_of_records records) =
  Frame (union_keys records)
        (seq (length records - n) (length records - (length records - n)))
        (row_of (union_keys records) <$> last_n n records).
Proof.
  unfold tail, frame_of_records, last_n. simpl.
  rewrite length_seq, length_fmap, drop_seq, fmap_drop. done.
Qed.

Lemma zip_fmap_pair {A B C : Type} (f : A → B) (g : A → C) (l : list A) :
  zip (f <$> l) (g <$> l) = (λ x, (f x, g x)) <$> l.
Proof. induction l as [|x l IH]; [done|]. csimpl. by rewrite IH. Qed.

Lemma fmap_zip_snd {A B C : Type} (h : B → C) (a : list A) (b : list B) :
  (λ x, (x.1, h x.2)) <$> zip a b = zip a (h <$> b).
Proof.
  revert b. induction a as [|x a IH]; intros [|y b]; [done..|].
  csimpl. by rewrite IH.
Qed.

Lemma fmap_snd_zip {A B C : Type} (g : B → C) (a : list A) (b : list B) :
  (length b ≤ length a)%nat → (λ r, g r.2) <$> zip a b = g <$> b.
Proof.
  revert b. induction a as [|x a IH]; intros [|y b] Hlen; simpl in Hlen;
    [done|lia|done|].
  csimpl. rewrite IH by lia. done.
Qed.

#[global] Instance stamp_le_total : Total stamp_le.
Proof. intros [x|] [y|]; simpl; try tauto. lia. Qed.

#[global] Instance by_stamp_total {A : Type} : Total (@by_stamp A).
Proof. intros p q. apply stamp_le_total. Qed.

(** Sorting keeps every row and puts the timestamps in ascending order. *)
Lemma sort_values_sorted {A : Type} (keyed : list (stamp * A)) :
  Sorted stamp_le (sort_values keyed).*1.
Proof.
  unfold sort_values. eapply Sorted_fmap; [|apply (Sorted_merge_sort by_stamp)].
  by intros p q.
Qed.

Lemma sort_values_Permutation {A : Type} (keyed : list (stamp * A)) :
  sort_values keyed ≡ₚ keyed.
Proof. apply merge_sort_Permutation. Qed.

End frame_properties.

(** ** Running the monad *)

Section running.

Lemma bind_run {A B : Type} (m : M A) (k : A → M B) (w w' : world) (a : A) :
  m w = (Ret a, w') → (m ≫= k) w = k a w'.
Proof. unfold mbind, M_bind. by intros ->. Qed.

Lemma bind_raise {A B : Type} (m : M A) (k : A → M B) (w w' : world) (e : exn) :
  m w = (Raise e, w') → (m ≫= k) w = (Raise e, w').
Proof. unfold mbind, M_bind. by intros ->. Qed.

Lemma renders_mono {A : Type} (P Q : widget → Prop) (m : M A) :
  (∀ x, P x → Q x) → renders P m → renders Q m.
Proof.
  intros HPQ Hm w. destruct (Hm w) as (d & Hw & Hd).
  exists d. split; [done|]. by eapply Forall_impl.
Qed.

Lemma renders_ret {A : Type} (P : widget → Prop) (a : A) : renders P (mret a).
Proof. intros w. exists []. by rewrite world_eta. Qed.

Lemma renders_lift {A : Type} (P : widget → Prop) (r : exc A) : renders P (lift r).
Proof. intros w. exists []. by rewrite world_eta. Qed.

Lemma renders_raise {A : Type} (P : widget → Prop) (e : exn) : renders P (@raise A e).
Proof. intros w. exists []. by rewrite world_eta. Qed.

Lemma renders_emit (P : widget → Prop) (x : widget) : P x → renders P (emit x).
Proof. intros Hx w. exists [x]. split; [done|]. by repeat constructor. Qed.

Lemma renders_bind {A B : Type} (P : widget → Prop) (m : M A) (k : A → M B) :
  renders P m → (∀ a, renders P (k a)) → renders P (m ≫= k).
Proof.
  intros Hm Hk w. destruct (Hm w) as (d & Hw & Hd).
  unfold mbind, M_bind. destruct (m w) as [[a|e] w1]; simpl in Hw; subst w1.
  - destruct (Hk a (World (files w) (opened w) (screen w ++ d))) as (d' & -> & Hd').
    simpl. exists (d ++ d'). rewrite app_assoc. split; [done|]. by apply Forall_app.
  - by exists d.
Qed.

Lemma renders_try {A : Type} (P : widget → Prop) (body : M A) (handler : exn → M A) :
  renders P body → (∀ e, renders P (handler e)) → renders P (try_except body handler).
Proof.
  intros Hm Hk w. destruct (Hm w) as (d & Hw & Hd).
  unfold try_except. destruct (body w) as [[a|e] w1]; simpl in Hw; subst w1.
  - by exists d.
  - destruct (Hk e (World (files w) (opened w) (screen w ++ d))) as (d' & -> & Hd').
    simpl. exists (d ++ d'). rewrite app_assoc. split; [done|]. by apply Forall_app.
Qed.

(** A handler that cannot raise makes the whole [try] statement return. *)
Lemma try_except_returns (body : M unit) (handler : exn → M unit) (w : world) :
  (∀ e w', (handler e w').1 = Ret ()) → (try_except body handler w).1 = Ret ().
Proof.
  intros Hh. unfold try_except. destruct (body w) as [[[]|e] w1]; [done|apply Hh].
Qed.

End running.

(** Goals of the form [renders P m], by the structure of [m]. *)
Ltac show_renders :=
  repeat first
    [ apply renders_ret | apply renders_lift | apply renders_raise
    | apply renders_emit; done
    | apply renders_bind; [|intros ?]
    | apply renders_try; [|intros ?]
    | progress unfold st_title, st_subheader, st_warning, st_error, st_info,
        st_columns, st_line_chart, st_dataframe, st_text_area, st_metric
    | case_match ].

(** Two descriptions of the same world, up to the bracketing of [++]. *)
Ltac same_world :=
  unfold st_title, st_subheader, st_warning, st_error, st_info, st_text_area, emit;
  cbn [files opened screen];
  repeat (progress (rewrite <- ?app_assoc; simpl));
  reflexivity.

(** ** Properties of the pages *)

Section page_properties.
Context `{JsonLib} `{PandasLib}.

Lemma has_key_truthy (k : string) (v : json) : has_key k v = true → truthy v = true.
Proof. destruct v as [| | | | | |[|[k' x] rest]]; simpl; done. Qed.

(** Whatever [load_knowledge_graph] returns passes the check of the page. *)
Lemma load_knowledge_graph_shape (file_path : string) (w : world) (kg_data : json) :
  (load_knowledge_graph file_path w).1 = Ret kg_data →
  isinstance_dict kg_data = true ∧ has_key "nodes" kg_data = true
  ∧ has_key "edges" kg_data = true ∧ kg_load_failed kg_data = false.
Proof.
  destruct (load_knowledge_graph_run file_path w) as (v & d & -> & Hcase).
  simpl. intros [= ->].
  assert (isinstance_dict kg_data = true ∧ has_key "nodes" kg_data = true
          ∧ has_key "edges" kg_data = true) as (Hd & Hn & He).
  { destruct Hcase as [[(text & _ & _ & Hs) _]|(_ & -> & _)]; [|done].
    unfold schema_ok in Hs. simpl in Hs.
    destruct (isinstance_dict kg_data), (has_key "nodes" kg_data),
      (has_key "edges" kg_data); done. }
  split_and!; try done.
  unfold kg_load_failed. by rewrite (has_key_truthy _ _ Hn), Hn.
Qed.

Lemma ethics_chart_renders (events : json) :
  renders (λ x, is_metric x = false) (ethics_chart events).
Proof. unfold ethics_chart. show_renders. Qed.

Lemma chart_part_renders (ethics_data : json) :
  renders (λ x, is_metric x = false) (chart_part ethics_data).
Proof. unfold chart_part. show_renders. Qed.

Lemma trend_summary_part_renders (ethics_data : json) :
  renders (λ _, True) (trend_summary_part ethics_data).
Proof. unfold trend_summary_part. show_renders. Qed.

Lemma renders_opened {A : Type} (P : widget → Prop) (m : M A) (w : world) :
  renders P m → opened (m w).2 = opened w ∧ files (m w).2 = files w.
Proof. intros Hm. by destruct (Hm w) as (d & -> & _). Qed.

(** C7, as amended.  The ethics page and the log page call their loader
    once in a render: each opens its file exactly once.  The knowledge
    graph page calls its loader once, and a second time when the first
    call returned a graph with no node and no edge. *)
Theorem pages_open_their_file (w : world) :
  opened (ethical_trends_page w).2 = opened w ++ [SOPHIA_ETHICS_DB_PATH]
  ∧ opened (system_event_log_viewer_page w).2 = opened w ++ [SOPHIA_SYSTEM_LOG_PATH]
  ∧ ∃ kg_data,
      (load_knowledge_graph SOPHIA_KG_PATH w).1 = Ret kg_data
      ∧ opened (knowledge_graph_explorer_page w).2 =
        opened w ++ (if empty_graph kg_data then [SOPHIA_KG_PATH; SOPHIA_KG_PATH]
                     else [SOPHIA_KG_PATH]).
Proof.
  split_and!.
  - unfold ethical_trends_page.
    erewrite bind_run by reflexivity. set (w1 := World _ _ _).
    destruct (load_ethics_db_run SOPHIA_ETHICS_DB_PATH w1) as (v & d & Hrun & _).
    erewrite bind_run by exact Hrun. set (w2 := World _ _ _).
    apply (renders_opened (λ _, True)). show_renders.
  - unfold system_event_log_viewer_page.
    erewrite bind_run by reflexivity. set (w1 := World _ _ _).
    destruct (load_system_event_log_run SOPHIA_SYSTEM_LOG_PATH w1) as (l & d & Hrun & _).
    erewrite bind_run by exact Hrun. set (w2 := World _ _ _).
    apply (renders_opened (λ _, True)). show_renders.
  - unfold knowledge_graph_explorer_page.
    destruct (load_knowledge_graph_run SOPHIA_KG_PATH w) as (v0 & d0 & Hrun0 & _).
    exists v0. split; [by rewrite Hrun0|].
    erewrite bind_run by reflexivity. set (w1 := World _ _ _).
    destruct (load_knowledge_graph_run SOPHIA_KG_PATH w1) as (v & d & Hrun & _).
    assert (v = v0) as ->.
    { pose proof (load_knowledge_graph_stable SOPHIA_KG_PATH w w1 eq_refl) as Hst.
      rewrite Hrun, Hrun0 in Hst. by injection Hst. }
    erewrite bind_run by exact Hrun. set (w2 := World _ _ _).
    destruct (load_knowledge_graph_shape SOPHIA_KG_PATH w v0) as (Hd & Hn & He & ->);
      [by rewrite Hrun0|].
    unfold kg_overview, empty_graph, len_of.
    destruct (py_get v0 "nodes" (JArr [])) as [nodes|e];
      [erewrite bind_run by reflexivity|by erewrite bind_raise by reflexivity].
    destruct (py_len nodes) as [num_nodes|e];
      [erewrite bind_run by reflexivity|by erewrite bind_raise by reflexivity].
    destruct (py_get v0 "edges" (JArr [])) as [edges|e];
      [erewrite bind_run by reflexivity
      |erewrite bind_raise by reflexivity; by destruct num_nodes].
    destruct (py_len edges) as [num_edges|e];
      [erewrite bind_run by reflexivity
      |erewrite bind_raise by reflexivity; by destruct num_nodes].
    subst w1 w2. cbn [files opened screen].
    do 4 (erewrite bind_run by reflexivity; cbn [files opened screen]).
    set (w3 := World _ _ _).
    destruct num_nodes as [|n], num_edges as [|m]; simpl; try done.
    destruct (load_knowledge_graph_run SOPHIA_KG_PATH w3) as (v3 & d3 & Hrun3 & _).
    erewrite (bind_run (load_knowledge_graph SOPHIA_KG_PATH ≫= _));
      [|erewrite bind_run by exact Hrun3; reflexivity].
    set (w4 := World _ _ _).
    transitivity (opened w4); [|simpl; by rewrite <- app_assoc].
    by apply (renders_opened (λ _, True)); show_renders.
Qed.

(** C10. Whatever the file, what [load_knowledge_graph] returns is a
    mapping that has the key [nodes] and the key [edges]: the parsed
    mapping passed the schema check, and the default has both.  So the
    check of the page for a failed load is false on it, and the page is
    the page without that branch. *)
Theorem kg_failure_branch_unreachable (file_path : string) (w : world) :
  (∃ kg_data, (load_knowledge_graph file_path w).1 = Ret kg_data
              ∧ isinstance_dict kg_data = true
              ∧ has_key "nodes" kg_data = true ∧ has_key "edges" kg_data = true
              ∧ kg_load_failed kg_data = false)
  ∧ knowledge_graph_explorer_page w =
    (st_title "Knowledge Graph Explorer";;
     kg_data ← load_knowledge_graph SOPHIA_KG_PATH;
     kg_overview kg_data) w.
Proof.
  split.
  - destruct (load_knowledge_graph_run file_path w) as (v & d & Hrun & _).
    exists v. split; [by rewrite Hrun|].
    apply (load_knowledge_graph_shape file_path w). by rewrite Hrun.
  - unfold knowledge_graph_explorer_page.
    erewrite !(bind_run (st_title _)) by reflexivity. set (w1 := World _ _ _).
    destruct (load_knowledge_graph_run SOPHIA_KG_PATH w1) as (v & d & Hrun & _).
    erewrite !bind_run by exact Hrun.
    destruct (load_knowledge_graph_shape SOPHIA_KG_PATH w1 v) as (_ & _ & _ & ->);
      [by rewrite Hrun|done].
Qed.

(** C5, as amended.  When the loaded log is not empty and its entries
    are all records, as the page assumes, the log page shows one table,
    and its rows are the last [min(20, length)] entries, in the order of
    the file, under the row labels they had in the whole log.  When
    [pd.DataFrame] rejects the loaded entries, the page raises after
    its sub-header and shows no table. *)
Theorem log_page_shows_last_entries (w : world) (log_entries : list json) :
  (load_system_event_log SOPHIA_SYSTEM_LOG_PATH w).1 = Ret log_entries →
  log_entries ≠ [] →
  (Forall (λ e, isinstance_dict e = true) log_entries →
   ∃ diagnostics shown,
     (system_event_log_viewer_page w).1 = Ret ()
     ∧ screen (system_event_log_viewer_page w).2 =
       screen w ++ [Title "System Event Log Viewer"] ++ diagnostics
         ++ [Subheader "Last 20 Log Entries"; DataFrameView shown 300]
         ++ log_page_footer
     ∧ Forall (λ x, is_diagnostic x = true) diagnostics
     ∧ columns shown = union_keys log_entries
     ∧ rows shown = row_of (columns shown) <$> last_n NUM_LOG_ENTRIES_DISPLAY log_entries
     ∧ length (rows shown) = Nat.min NUM_LOG_ENTRIES_DISPLAY (length log_entries)
     ∧ index shown = seq (length log_entries - length (rows shown)) (length (rows shown)))
  ∧ (∀ e, pd_DataFrame (JArr log_entries) = Raise e →
     ∃ diagnostics,
       system_event_log_viewer_page w =
       (Raise e, World (files w) (opened w ++ [SOPHIA_SYSTEM_LOG_PATH])
                       (screen w ++ [Title "System Event Log Viewer"] ++ diagnostics
                        ++ [Subheader "Last 20 Log Entries"]))
       ∧ Forall (λ x, is_diagnostic x = true) diagnostics).
Proof.
  intros Hload Hne.
  unfold system_event_log_viewer_page.
  erewrite bind_run by reflexivity. set (w1 := World _ _ _).
  destruct (load_system_event_log_run SOPHIA_SYSTEM_LOG_PATH w1) as (l & d & Hrun & Hd & _).
  assert (l = log_entries) as ->.
  { pose proof (load_system_event_log_stable SOPHIA_SYSTEM_LOG_PATH w w1 eq_refl) as Hst.
    rewrite Hrun, Hload in Hst. by injection Hst. }
  erewrite bind_run by exact Hrun. subst w1. cbn [files opened screen].
  destruct log_entries as [|e es]; [done|].
  cbn [truthy negb isinstance_list andb length Nat.ltb Nat.leb].
  erewrite bind_run by reflexivity. cbn [files opened screen].
  split.
  - intros Hrecords.
    assert (pd_DataFrame (JArr (e :: es)) = Ret (frame_of_records (e :: es))) as Hdf.
    { unfold pd_DataFrame.
      assert (forallb isinstance_dict (e :: es) = true) as ->; [|done].
      apply forallb_forall. intros x Hx%list_elem_of_In.
      by eapply Forall_forall in Hrecords. }
    erewrite (bind_run (lift _ ≫= _)).
    2:{ erewrite bind_run; [reflexivity|]. unfold lift. by rewrite Hdf. }
    cbn [files opened screen].
    exists d, (tail NUM_LOG_ENTRIES_DISPLAY (frame_of_records (e :: es))).
    rewrite tail_frame_of_records. cbn [columns rows index].
    split_and!; [done| |done|done|done| |].
    + simpl. rewrite <- !app_assoc. done.
    + rewrite length_fmap. unfold last_n, NUM_LOG_ENTRIES_DISPLAY.
      rewrite length_drop. simpl length. lia.
    + rewrite length_fmap. unfold last_n, NUM_LOG_ENTRIES_DISPLAY.
      rewrite length_drop. f_equal; simpl length; lia.
  - intros e0 Hdf. exists d. split; [|done].
    erewrite (bind_raise (lift _ ≫= _)).
    2:{ erewrite bind_raise; [reflexivity|]. unfold lift. by rewrite Hdf. }
    cbn [files opened screen]. simpl. by rewrite <- !app_assoc.
Qed.

Lemma field_Some_dict (k : string) (v x : json) :
  field k v = Some x → ∃ fields, v = JObj fields ∧ assoc k fields = Some x.
Proof. unfold field. destruct v; simpl; try done. eauto. Qed.

(** With events to chart, the last part of the ethics page always
    returns, and shows no metric. *)
Lemma chart_part_run (ethics_data events : json) (w : world) :
  field "ethical_events" ethics_data = Some events →
  ∃ d, chart_part ethics_data w = (Ret (), World (files w) (opened w) (screen w ++ d))
       ∧ Forall (λ x, is_metric x = false) d.
Proof.
  intros (fields & -> & Hev)%field_Some_dict.
  destruct (chart_part_renders (JObj fields) w) as (d & Hw & Hd).
  exists d. split; [|done].
  assert ((chart_part (JObj fields) w).1 = Ret ()) as Hret.
  { unfold chart_part, py_getitem. rewrite Hev.
    erewrite bind_run by reflexivity.
    destruct (truthy events); simpl; [|done]. by apply try_except_returns. }
  destruct (chart_part (JObj fields) w) as [r w']. simpl in *. by subst.
Qed.

(** C6, as amended.  For an ethics database with events to show:
    when [trend_analysis] is absent, the ethics page renders no
    headline metric; it shows the notice that no trend summary is
    available, then the chart part, and returns without error.  The
    default values ["N/A"] and [0], formatted ["0.00"], are what the two
    metrics show when [trend_analysis] is a non-empty mapping that has
    neither key. *)
Theorem trend_summary_defaults (w : world) (ethics_data events : json) :
  (load_ethics_db SOPHIA_ETHICS_DB_PATH w).1 = Ret ethics_data →
  field "ethical_events" ethics_data = Some events →
  truthy events = true →
  (field "trend_analysis" ethics_data = None →
   ∃ chart_widgets,
     ethical_trends_page w =
     (Ret (), World (files w) (opened w ++ [SOPHIA_ETHICS_DB_PATH])
                    (screen w
                     ++ [Title "Ethical Trends Analysis";
                         Info "No trend analysis summary available in the data."]
                     ++ chart_widgets))
     ∧ Forall (λ x, is_metric x = false) chart_widgets)
  ∧ (∀ summary,
       field "trend_analysis" ethics_data = Some (JObj summary) →
       summary ≠ [] →
       assoc "current_trend_direction" summary = None →
       assoc "short_term_avg_score_t_weighted" summary = None →
       ∃ chart_widgets,
         ethical_trends_page w =
         (Ret (), World (files w) (opened w ++ [SOPHIA_ETHICS_DB_PATH])
                        (screen w
                         ++ [Title "Ethical Trends Analysis";
                             Subheader "Trend Analysis Summary";
                             Columns 2;
                             Metric "Current Trend Direction" (JStr "N/A");
                             Metric "Short-term Avg Score (Time-Weighted)" (JStr "0.00")]
                         ++ chart_widgets))
         ∧ Forall (λ x, is_metric x = false) chart_widgets).
Proof.
  intros Hload Hev Htruthy.
  unfold ethical_trends_page.
  erewrite bind_run by reflexivity. set (w1 := World _ _ _).
  destruct (load_ethics_db_run SOPHIA_ETHICS_DB_PATH w1) as (v & d & Hrun & Hcase).
  assert (v = ethics_data) as ->.
  { pose proof (load_ethics_db_stable SOPHIA_ETHICS_DB_PATH w w1 eq_refl) as Hst.
    rewrite Hrun, Hload in Hst. by injection Hst. }
  assert (d = []) as ->.
  { destruct Hcase as [[_ ->]|(_ & -> & _)]; [done|].
    injection Hev as <-. done. }
  erewrite bind_run by exact Hrun. subst w1. cbn [files opened screen].
  rewrite app_nil_r.
  pose proof Hev as (fields & -> & Hev')%field_Some_dict.
  assert (truthy (JObj fields) = true) as ->.
  { destruct fields; [done|done]. }
  cbn [negb py_get]. rewrite Hev'.
  erewrite (bind_run (lift _ ≫= _)) by reflexivity.
  rewrite Htruthy. cbn [negb].
  unfold trend_summary_part, py_get, field, record_fields in *.
  split.
  - intros ->.
    erewrite (bind_run (lift _ ≫= _)) by reflexivity. cbn [files opened screen].
    match goal with
    | |- context [chart_part ?x ?w'] =>
        destruct (chart_part_run x events w') as (cw & -> & Hcw); [done|]
    end.
    exists cw. split; [|done]. cbn [files opened screen].
    by rewrite <- !app_assoc.
  - intros summary -> Hne Hdir Hscore.
    assert (truthy (JObj summary) = true) as Hsum by (by destruct summary).
    erewrite (bind_run (lift _ ≫= _)).
    2:{ erewrite bind_run by reflexivity. rewrite Hsum.
        do 2 (erewrite bind_run by reflexivity). rewrite Hdir.
        do 2 (erewrite bind_run by reflexivity). rewrite Hscore.
        do 2 (erewrite bind_run by reflexivity). reflexivity. }
    cbn [files opened screen].
    match goal with
    | |- context [chart_part ?x ?w'] =>
        destruct (chart_part_run x events w') as (cw & -> & Hcw); [done|]
    end.
    exists cw. split; [|done]. cbn [files opened screen].
    by rewrite <- !app_assoc.
Qed.

(** C8, as amended.  A field is present in the event records when some
    record has it (the frame then has the column), absent when none
    has.  For a non-empty list of event records in which [timestamp]
    and [final_score] are present, and whose timestamps convert, the
    chart of the ethics page has one point for each event, in ascending
    order of the converted timestamp, with [final_score] as its only
    series.  When [timestamp] is absent, or else when [final_score] is,
    no chart is built and an error naming that field is shown.  When
    both are present and the timestamps do not convert, no chart is
    built either: the conversion raises, and the handler of the page
    shows the error that carries the message of the exception. *)
Theorem ethics_chart_sorted_or_refused (events : list json) (w : world) :
  events ≠ [] →
  Forall (λ r, isinstance_dict r = true) events →
  (existsb (has_key "timestamp") events = true →
   existsb (has_key "final_score") events = true →
   ∀ ts, to_datetime (field "timestamp" <$> events) = Ret ts →
   ∃ c scores,
     ethics_chart (JArr events) w =
     (Ret (), World (files w) (opened w)
                    (screen w ++ [Subheader "Ethical Score Over Time"; LineChart c]))
     ∧ chart_series c = [("final_score", scores)]
     ∧ length (chart_index c) = length events
     ∧ zip (chart_index c) scores ≡ₚ zip ts (field "final_score" <$> events)
     ∧ Sorted stamp_le (chart_index c))
  ∧ (existsb (has_key "timestamp") events = false →
     ethics_chart (JArr events) w =
     (Ret (), World (files w) (opened w)
                    (screen w ++ [Error "Error: 'timestamp' column missing in ethical events data."])))
  ∧ (existsb (has_key "timestamp") events = true →
     existsb (has_key "final_score") events = false →
     ethics_chart (JArr events) w =
     (Ret (), World (files w) (opened w)
                    (screen w ++ [Error "Error: 'final_score' column missing in ethical events data."])))
  ∧ (existsb (has_key "timestamp") events = true →
     existsb (has_key "final_score") events = true →
     ∀ e, to_datetime (field "timestamp" <$> events) = Raise e →
     ethics_chart (JArr events) w = (Raise e, w)
     ∧ try_except (ethics_chart (JArr events))
         (λ e, st_error ("An error occurred while preparing data for the chart: "
                         +:+ exn_msg e)) w =
       (Ret (), World (files w) (opened w) (screen w ++ [chart_error (exn_msg e)]))).
Proof.
  intros Hne Hrecords.
  assert (pd_DataFrame (JArr events) = Ret (frame_of_records events)) as Hdf.
  { unfold pd_DataFrame. destruct events as [|e es]; [done|].
    assert (forallb isinstance_dict (e :: es) = true) as ->; [|done].
    apply forallb_forall. intros x Hx%list_elem_of_In.
    by eapply Forall_forall in Hrecords. }
  assert (∀ k, existsb (has_key k) events = true → k ∈ union_keys events) as Hcolumn.
  { intros k Hk. apply elem_of_union_keys. apply existsb_exists in Hk as (r & Hr & Hk).
    exists r. split; [by apply list_elem_of_In|done]. }
  unfold try_except, ethics_chart. rewrite Hdf.
  erewrite bind_run by reflexivity.
  rewrite !has_column_frame_of_records.
  split_and!.
  - intros Hts Hfs ts Hconv. rewrite Hts, Hfs. cbn [negb].
    pose proof (Hcolumn _ Hts) as Hcol. pose proof (Hcolumn _ Hfs) as Hcol'.
    rewrite column_frame_of_records by done. rewrite Hconv.
    erewrite bind_run by reflexivity.
    erewrite bind_run by reflexivity. cbn [files opened screen].
    eexists _, _. split_and!.
    + unfold st_line_chart, emit. cbn [files opened screen].
      rewrite <- app_assoc. reflexivity.
    + reflexivity.
    + cbn [chart_of chart_index]. rewrite length_fmap.
      rewrite (Permutation_length (sort_values_Permutation _)).
      unfold keyed_rows, frame_of_records. cbn [index rows].
      rewrite !length_zip, length_seq, length_fmap.
      apply to_datetime_length in Hconv. rewrite length_fmap in Hconv. lia.
    + cbn [chart_of chart_index]. rewrite zip_fmap_pair.
      rewrite (sort_values_Permutation _).
      unfold keyed_rows, frame_of_records. cbn [index rows columns].
      rewrite (fmap_zip_snd (λ r, cell_at (union_keys events) "final_score" r.2)).
      rewrite fmap_snd_zip by (by rewrite length_seq, length_fmap).
      rewrite <- list_fmap_compose.
      erewrite (list_fmap_ext _ (field "final_score")); [done|].
      intros _ r _. simpl. by apply cell_at_row_of.
    + apply sort_values_sorted.
  - intros ->. done.
  - intros -> ->. done.
  - intros Hts Hfs e Hconv. rewrite Hts, Hfs. cbn [negb].
    rewrite column_frame_of_records by auto.
    erewrite bind_raise by (unfold lift; by rewrite Hconv).
    split; [by destruct w|done].
Qed.

End page_properties.

(** ** The pages on the sample files *)

Section page_samples.
Import Samples.

(** A log of 25 entries: the table has the 20 rows of entries 6 to 25,
    in that order, labelled 5 to 24. *)
Lemma log_page_shows_last_entries_witness :
  let w := host {[ SOPHIA_SYSTEM_LOG_PATH := Readable (numbered_log 25) ]} in
  ∃ shown,
    DataFrameView shown 300 ∈ screen (system_event_log_viewer_page w).2
    ∧ rows shown = (λ i, [Some (JInt (Z.of_nat i))]) <$> seq 6 20
    ∧ index shown = seq 5 20.
Proof.
  intros w.
  pose (log_entries := (λ i, JObj [("seq", JInt (Z.of_nat i))]) <$> seq 1 25).
  assert ((load_system_event_log SOPHIA_SYSTEM_LOG_PATH w).1 = Ret log_entries) as Hload
    by (vm_compute; reflexivity).
  assert (log_entries ≠ []) as Hne by discriminate.
  assert (Forall (λ e, isinstance_dict e = true) log_entries) as Hrecords
    by (vm_compute; repeat constructor).
  destruct (proj1 (log_page_shows_last_entries w log_entries Hload Hne) Hrecords)
    as (diagnostics & shown & _ & Hscreen & _ & Hcols & Hrows & Hlen & Hindex).
  exists shown. split_and!.
  - rewrite Hscreen. rewrite !elem_of_app. right. right. right. left.
    apply list_elem_of_further, list_elem_of_here.
  - rewrite Hrows, Hcols. vm_compute. reflexivity.
  - rewrite Hindex, Hlen. vm_compute. reflexivity.
Defined.

(** C5, as stated, fails.  A log of two lines, a record and a number:
    the loaded sequence is not empty, yet the page displays none of
    its entries; [pd.DataFrame] refuses them, outside any handler, and
    the page raises under its sub-header, with no table and without
    the note that closes it. *)
Lemma log_page_displays_no_entry_of_mixed_log :
  let text := dq "{'a': 1}" +:+ nl +:+ "5" +:+ nl in
  let w := host {[ SOPHIA_SYSTEM_LOG_PATH := Readable text ]} in
  (load_system_event_log SOPHIA_SYSTEM_LOG_PATH w).1 = Ret [JObj [("a", JInt 1)]; JInt 5]
  ∧ (∃ e, (system_event_log_viewer_page w).1 = Raise e)
  ∧ screen (system_event_log_viewer_page w).2 =
    [Title "System Event Log Viewer"; Subheader "Last 20 Log Entries"].
Proof.
  intros text w. split_and!; [|eexists|]; vm_compute; reflexivity.
Qed.

(** C6, as stated, fails.  On the ethics file of the specification,
    which has events and no [trend_analysis], the page returns without
    error but renders no metric at all: after the title comes the
    notice that no trend summary is available, then the chart. *)
Lemma trend_page_shows_no_metric_without_trend_analysis :
  let w := host {[ SOPHIA_ETHICS_DB_PATH := Readable ethics_without_trend ]} in
  (ethical_trends_page w).1 = Ret ()
  ∧ existsb is_metric (screen (ethical_trends_page w).2) = false
  ∧ screen (ethical_trends_page w).2 =
    [Title "Ethical Trends Analysis";
     Info "No trend analysis summary available in the data.";
     Subheader "Ethical Score Over Time";
     LineChart (Chart [At 1672574400]
                      [("final_score",
                        [Some (JFloat (S754_finite false 7205759403792794 (-53)))])])].
Proof. intros w. split_and!; vm_compute; reflexivity. Qed.

(** Without [trend_analysis]: the notice and no metric.  With a
    [trend_analysis] that has neither key: ["N/A"] and ["0.00"]. *)
Lemma trend_summary_defaults_witness :
  (let w := host {[ SOPHIA_ETHICS_DB_PATH := Readable ethics_without_trend ]} in
   ∃ chart_widgets,
     ethical_trends_page w =
     (Ret (), World (files w) [SOPHIA_ETHICS_DB_PATH]
                    ([Title "Ethical Trends Analysis";
                      Info "No trend analysis summary available in the data."]
                     ++ chart_widgets))
     ∧ Forall (λ x, is_metric x = false) chart_widgets)
  ∧ (let w := host {[ SOPHIA_ETHICS_DB_PATH := Readable ethics_with_bare_trend ]} in
     ∃ chart_widgets,
       ethical_trends_page w =
       (Ret (), World (files w) [SOPHIA_ETHICS_DB_PATH]
                      ([Title "Ethical Trends Analysis";
                        Subheader "Trend Analysis Summary";
                        Columns 2;
                        Metric "Current Trend Direction" (JStr "N/A");
                        Metric "Short-term Avg Score (Time-Weighted)" (JStr "0.00")]
                       ++ chart_widgets))
       ∧ Forall (λ x, is_metric x = false) chart_widgets).
Proof.
  pose (event := JObj [("timestamp", JStr "2023-01-01T12:00:00Z");
                      ("final_score",
                       JFloat (S754_finite false 7205759403792794 (-53)))]).
  split; intros w.
  - assert ((load_ethics_db SOPHIA_ETHICS_DB_PATH w).1
            = Ret (JObj [("ethical_events", JArr [event])])) as Hload
      by (vm_compute; reflexivity).
    apply (proj1 (trend_summary_defaults w _ (JArr [event]) Hload eq_refl eq_refl)).
    reflexivity.
  - assert ((load_ethics_db SOPHIA_ETHICS_DB_PATH w).1
            = Ret (JObj [("ethical_events", JArr [event]);
                         ("trend_analysis", JObj [("window", JInt 5)])])) as Hload
      by (vm_compute; reflexivity).
    apply (proj2 (trend_summary_defaults w _ (JArr [event]) Hload eq_refl eq_refl)
             [("window", JInt 5)]); [reflexivity|discriminate|reflexivity..].
Defined.

(** C7, as stated, fails.  With no graph file, the first load returns
    the default, both counts are zero, and the page calls the loader
    again: one render, two reads of the file. *)
Lemma kg_page_opens_its_file_twice :
  opened (main KnowledgeGraphExplorer (host ∅)).2 = [SOPHIA_KG_PATH; SOPHIA_KG_PATH]
  ∧ opened (knowledge_graph_explorer_page (host ∅)).2 = [SOPHIA_KG_PATH; SOPHIA_KG_PATH].
Proof. split; vm_compute; reflexivity. Qed.

(** Two events, the later one first in the file: the chart has them in
    order of time.  Events without [timestamp], and events without
    [final_score]: the error that names the field, and no chart. *)
Lemma ethics_chart_sorted_or_refused_witness :
  let later := JObj [("timestamp", JStr "2023-01-01T12:05:00Z");
                     ("final_score", JInt 7); ("description", JStr "Event B")] in
  let earlier := JObj [("timestamp", JStr "2023-01-01T12:00:00Z");
                       ("final_score", JInt 8); ("description", JStr "Event A")] in
  (∃ c, ethics_chart (JArr [later; earlier]) (host ∅) =
        (Ret (), World ∅ [] [Subheader "Ethical Score Over Time"; LineChart c])
        ∧ chart_index c = [At 1672574400; At 1672574700]
        ∧ chart_series c = [("final_score", [Some (JInt 8); Some (JInt 7)])]
        ∧ Sorted stamp_le (chart_index c))
  ∧ ethics_chart (JArr [JObj [("final_score", JInt 7)]]) (host ∅) =
    (Ret (), World ∅ [] [Error "Error: 'timestamp' column missing in ethical events data."])
  ∧ ethics_chart (JArr [JObj [("timestamp", JStr "2023-01-01T12:05:00Z")]]) (host ∅) =
    (Ret (), World ∅ [] [Error "Error: 'final_score' column missing in ethical events data."])
  ∧ (∃ e, ethics_chart (JArr [JObj [("timestamp", JStr "noon"); ("final_score", JInt 7)]])
            (host ∅) = (Raise e, host ∅)).
Proof.
  intros later earlier. split_and!.
  - assert ([later; earlier] ≠ []) as Hne by discriminate.
    assert (Forall (λ r, isinstance_dict r = true) [later; earlier]) as Hrecords
      by (repeat constructor).
    assert (to_datetime (field "timestamp" <$> [later; earlier])
            = Ret [At 1672574700; At 1672574400]) as Hconv
      by (vm_compute; reflexivity).
    destruct (proj1 (ethics_chart_sorted_or_refused [later; earlier] (host ∅)
                       Hne Hrecords)
                eq_refl eq_refl [At 1672574700; At 1672574400] Hconv)
      as (c & scores & Hrun & _ & _ & _ & Hsorted).
    exists c. split; [exact Hrun|].
    vm_compute in Hrun. injection Hrun as <-.
    split_and!; [reflexivity..|exact Hsorted].
  - assert ([JObj [("final_score", JInt 7)]] ≠ []) as Hne by discriminate.
    assert (Forall (λ r, isinstance_dict r = true) [JObj [("final_score", JInt 7)]])
      as Hrecords by (repeat constructor).
    exact (proj1 (proj2 (ethics_chart_sorted_or_refused _ (host ∅) Hne Hrecords))
             eq_refl).
  - assert ([JObj [("timestamp", JStr "2023-01-01T12:05:00Z")]] ≠ []) as Hne
      by discriminate.
    assert (Forall (λ r, isinstance_dict r = true)
              [JObj [("timestamp", JStr "2023-01-01T12:05:00Z")]])
      as Hrecords by (repeat constructor).
    exact (proj1 (proj2 (proj2 (ethics_chart_sorted_or_refused _ (host ∅) Hne Hrecords)))
             eq_refl eq_refl).
  - pose (events := [JObj [("timestamp", JStr "noon"); ("final_score", JInt 7)]]).
    assert (events ≠ []) as Hne by discriminate.
    assert (Forall (λ r, isinstance_dict r = true) events) as Hrecords
      by (repeat constructor).
    assert (to_datetime (field "timestamp" <$> events)
            = Raise (Exn OtherException "Unknown datetime string format")) as Hconv
      by (vm_compute; reflexivity).
    eexists.
    exact (proj1 (proj2 (proj2 (proj2 (ethics_chart_sorted_or_refused events (host ∅)
                                         Hne Hrecords)))
                    eq_refl eq_refl _ Hconv)).
Defined.

(** C8, as stated, fails.  One event record that has both fields, with
    a timestamp that is no date: neither field is absent, yet there is
    no chart; the conversion raises, and the page shows the error of
    its handler, which names no field. *)
Lemma no_chart_although_both_fields_present :
  let events := [JObj [("timestamp", JStr "yesterday"); ("final_score", JInt 1)]] in
  existsb (has_key "timestamp") events = true
  ∧ existsb (has_key "final_score") events = true
  ∧ ∃ msg,
      chart_part (JObj [("ethical_events", JArr events)]) (host ∅) =
      (Ret (), World ∅ []
                 [Error ("An error occurred while preparing data for the chart: " +:+ msg)]).
Proof.
  intros events. split_and!; [reflexivity..|].
  eexists. vm_compute. reflexivity.
Qed.

(** The whole ethics page on the file of the self-test, which has a
    trend summary: both metrics, then the chart in order of time. *)
Example ethical_trends_page_on_dummy_ethics :
  screen (main EthicalTrends
            (host {[ SOPHIA_ETHICS_DB_PATH := Readable dummy_ethics ]})).2 =
  [PageConfig "Sophia Toolkit" "wide";
   SidebarTitle "Sophia Toolkit Navigation";
   SidebarRadio "Go to"
     ["Ethical Trends"; "Knowledge Graph Explorer"; "System Event Log Viewer"];
   Title "Ethical Trends Analysis";
   Subheader "Trend Analysis Summary";
   Columns 2;
   Metric "Current Trend Direction" (JStr "stable");
   Metric "Short-term Avg Score (Time-Weighted)" (JStr "0.75");
   Subheader "Ethical Score Over Time";
   LineChart
     (Chart [At 1672574400; At 1672574700]
            [("final_score",
              [Some (JFloat (S754_finite false 7205759403792794 (-53)));
               Some (JFloat (S754_finite false 6305039478318694 (-53)))])])].
Proof. vm_compute. reflexivity. Qed.

End page_samples.

(** ** More on the loaders: notices, partial failures, appended logs *)

Section loader_extras.
Context `{JsonLib}.

(** X1. A document loader shows at most one notice in a call: none when
    the load goes through, one warning when the file parses but the
    value fails the schema check, one error in every other failure
    (no file, unreadable file, invalid JSON, parser giving up). *)
Theorem document_loader_notices (file_path : string) (w : world) :
  let verdict (required : list string) (d : list widget) : Prop :=
    match files w !! file_path with
    | Some (Readable text) =>
        match json_loads text with
        | Parsed v => if schema_ok required v then d = [] else ∃ s, d = [Warning s]
        | _ => ∃ s, d = [Error s]
        end
    | _ => ∃ s, d = [Error s]
    end in
  (∃ d, screen (load_ethics_db file_path w).2 = screen w ++ d
        ∧ verdict ["ethical_events"] d)
  ∧ (∃ d, screen (load_knowledge_graph file_path w).2 = screen w ++ d
          ∧ verdict ["nodes"; "edges"] d).
Proof.
  intros verdict. unfold verdict. split.
  - unfold load_ethics_db, try_except, mbind, M_bind. rewrite json_load_run.
    destruct (files w !! file_path) as [[text|text n msg]|]; simpl; [|eauto..].
    destruct (json_loads text) as [v|msg|msg]; simpl; [|eauto..].
    unfold schema_ok. simpl.
    destruct (isinstance_dict v); simpl; [|eauto].
    destruct (has_key "ethical_events" v); simpl; [|eauto].
    exists []. by rewrite app_nil_r.
  - unfold load_knowledge_graph, try_except, mbind, M_bind. rewrite json_load_run.
    destruct (files w !! file_path) as [[text|text n msg]|]; simpl; [|eauto..].
    destruct (json_loads text) as [v|msg|msg]; simpl; [|eauto..].
    unfold schema_ok. simpl.
    destruct (isinstance_dict v); simpl; [|eauto].
    destruct (has_key "nodes" v); simpl; [|eauto].
    destruct (has_key "edges" v); simpl; [|eauto].
    exists []. by rewrite app_nil_r.
Qed.

(** X2. Whatever the file, what [load_ethics_db] returns is a non-empty
    mapping that has the key [ethical_events]: subscripting it with
    that key never fails, and [not ethics_data] is never true. *)
Theorem load_ethics_db_shape (file_path : string) (w : world) :
  ∃ ethics_data events,
    (load_ethics_db file_path w).1 = Ret ethics_data
    ∧ isinstance_dict ethics_data = true
    ∧ truthy ethics_data = true
    ∧ py_getitem ethics_data "ethical_events" = Ret events
    ∧ py_get ethics_data "ethical_events" JNull = Ret events.
Proof.
  destruct (load_ethics_db_run file_path w) as (v & d & -> & Hcase). simpl.
  destruct Hcase as [[(text & _ & _ & Hs) _]|(_ & -> & _)].
  - unfold schema_ok in Hs. simpl in Hs.
    destruct v as [| | | | | |fields]; try discriminate Hs. simpl in Hs.
    destruct (assoc "ethical_events" fields) as [events|] eqn:Hev; [|discriminate Hs].
    exists (JObj fields), events. simpl. rewrite Hev.
    split_and!; try done. by destruct fields.
  - by exists default_ethics_db, (JArr []).
Qed.

(** X3. One line on which the parser fails otherwise than with
    [JSONDecodeError] costs the whole log: the entries already parsed
    are dropped and the empty sequence is returned.  The warnings for
    the lines before it stay on the screen, followed by the notice of
    an unexpected error; the lines after it are not read. *)
Theorem log_fault_discards_entries (file_path text : string) (pre post : list string)
    (bad msg : string) (w : world) :
  files w !! file_path = Some (Readable text) →
  readlines text = pre ++ bad :: post →
  existsb faults pre = false →
  is_blank bad = false →
  json_loads bad = ParserFault msg →
  load_system_event_log file_path w =
  (Ret [], World (files w) (opened w ++ [file_path])
                 (screen w ++ line_warnings file_path 1 pre
                  ++ [unexpected_error file_path msg])).
Proof. apply load_system_event_log_fault. Qed.

(** X4. A file whose reading breaks off after some lines gives the
    empty sequence as well, however many entries those lines held.
    When none of the lines read makes the parser fail otherwise than
    with [JSONDecodeError], their warnings are shown, then the notice
    of the error of reading. *)
Theorem log_read_failure_discards_entries (file_path text msg : string)
    (lines_read : nat) (w : world) :
  files w !! file_path = Some (Unreadable text lines_read msg) →
  existsb faults (take lines_read (readlines text)) = false →
  load_system_event_log file_path w =
  (Ret [], World (files w) (opened w ++ [file_path])
                 (screen w ++ line_warnings file_path 1 (take lines_read (readlines text))
                  ++ [unexpected_error file_path msg])).
Proof.
  intros Hf Hclean.
  unfold load_system_event_log, try_except, mbind, M_bind, py_open.
  rewrite Hf. simpl. rewrite (log_loop_clean _ _ Hclean). simpl.
  unfold unexpected_error, line_warnings. by rewrite <- app_assoc.
Qed.

Lemma count_entries_and_warnings (lines : list string) (first : nat) :
  existsb faults lines = false →
  (length (parsed_entries lines) + length (undecodable_lines first lines))%nat
  = count_nonblank lines.
Proof.
  revert first. induction lines as [|line rest IH]; intros first Hclean; [done|].
  simpl in Hclean. apply orb_false_iff in Hclean as [Hline Hrest].
  unfold faults in Hline. unfold parsed_entries, count_nonblank in *. simpl.
  specialize (IH (S first) Hrest).
  destruct (is_blank line); simpl; [done|].
  destruct (json_loads line); simpl in *; [| |done].
  - f_equal. exact IH.
  - rewrite Nat.add_succ_r. f_equal. exact IH.
Qed.

(** X5. Every non-blank line of a readable log is accounted for, when
    none of its lines makes the parser fail otherwise than with
    [JSONDecodeError]: the number of entries returned plus the number
    of notices shown is the number of non-blank lines, a line being
    what ends at LF, CR LF or CR. *)
Theorem log_lines_accounted_for (file_path text : string) (w : world) :
  files w !! file_path = Some (Readable text) →
  existsb faults (readlines text) = false →
  ∃ log_entries d,
    load_system_event_log file_path w =
    (Ret log_entries, World (files w) (opened w ++ [file_path]) (screen w ++ d))
    ∧ (length log_entries + length d)%nat = count_nonblank (readlines text).
Proof.
  intros Hf Hclean.
  destruct (load_system_event_log_run file_path w) as (l & d & Hrun & _ & Hcase).
  exists l, d. split; [done|].
  destruct Hcase as [(text' & Hf' & _ & -> & ->)|[Hfail _]].
  - simplify_eq. rewrite length_fmap. by apply count_entries_and_warnings.
  - by destruct (log_failure_not_clean _ _ _ Hf Hclean).
Qed.

Lemma elem_of_undecodable_lines (k first : nat) (lines : list string) :
  k ∈ undecodable_lines first lines
  ↔ ∃ i line msg, k = (first + i)%nat ∧ lines !! i = Some line
                  ∧ is_blank line = false ∧ json_loads line = Malformed msg.
Proof.
  revert first. induction lines as [|line rest IH]; intros first; simpl.
  - split; [by intros ?%elem_of_nil|]. by intros (i & ? & ? & _ & ? & _).
  - split.
    + intros Hin.
      assert (k ∈ undecodable_lines (S first) rest →
              ∃ i l msg, k = (first + i)%nat ∧ (line :: rest) !! i = Some l
                         ∧ is_blank l = false ∧ json_loads l = Malformed msg) as Hlater.
      { intros (i & l & m & -> & ? & ? & ?)%IH. exists (S i), l, m.
        by rewrite Nat.add_succ_r. }
      destruct (is_blank line) eqn:Hblank; [by apply Hlater|].
      destruct (json_loads line) as [v|msg|msg] eqn:Hp;
        [by apply Hlater| |by apply Hlater].
      apply elem_of_cons in Hin as [->|Hin]; [|by apply Hlater].
      exists O, line, msg. by rewrite Nat.add_0_r.
    + intros (i & l & m & -> & Hl & Hb & Hm). destruct i as [|i].
      * simpl in Hl. injection Hl as <-. rewrite Hb, Hm, Nat.add_0_r.
        apply list_elem_of_here.
      * assert ((first + S i)%nat ∈ undecodable_lines (S first) rest) as Hin.
        { apply IH. exists i, l, m. by rewrite Nat.add_succ_r. }
        destruct (is_blank line); [done|].
        destruct (json_loads line); [done| |done].
        by apply list_elem_of_further.
Qed.

(** X6. The line number in a warning is the position of the line in the
    file, counted from 1 and blank lines included: for a readable log
    none of whose lines makes the parser fail otherwise than with
    [JSONDecodeError], the notices shown are exactly the warnings for
    the non-blank lines that are not JSON, each under its own
    position. *)
Theorem log_warnings_name_file_lines (file_path text : string) (w : world) :
  files w !! file_path = Some (Readable text) →
  existsb faults (readlines text) = false →
  ∃ d, screen (load_system_event_log file_path w).2 = screen w ++ d
       ∧ ∀ x, x ∈ d
              ↔ ∃ i line msg,
                  readlines text !! i = Some line ∧ is_blank line = false
                  ∧ json_loads line = Malformed msg
                  ∧ x = Warning (line_warning file_path (S i)).
Proof.
  intros Hf Hclean.
  destruct (load_system_event_log_run file_path w) as (l & d & -> & _ & Hcase).
  exists d. split; [done|].
  destruct Hcase as [(text' & Hf' & _ & _ & ->)|[Hfail _]];
    [|by destruct (log_failure_not_clean _ _ _ Hf Hclean)].
  simplify_eq. intros x. rewrite list_elem_of_fmap.
  setoid_rewrite elem_of_undecodable_lines. split.
  - intros (k & -> & i & line & msg & -> & ? & ? & ?). by exists i, line, msg.
  - intros (i & line & msg & ? & ? & ? & ->). exists (S i). split; [done|].
    by exists i, line, msg.
Qed.

Lemma lines_of_nil (text : string) : lines_of text = [] → text = "".
Proof.
  destruct text as [|c rest]; [done|]. simpl.
  destruct (Ascii.eqb c newline); [done|]. by destruct (lines_of rest).
Qed.

Lemma lines_of_app (t1 t2 : string) :
  complete t1 = true → lines_of (t1 +:+ t2) = lines_of t1 ++ lines_of t2.
Proof.
  induction t1 as [|c rest IH]; [done|]. intros Hc. simpl.
  destruct rest as [|c' rest'].
  - simpl in *. by rewrite Hc.
  - specialize (IH Hc). rewrite IH.
    destruct (Ascii.eqb c newline); [done|].
    destruct (lines_of (String c' rest')) as [|line lines] eqn:Hl; [|done].
    by apply lines_of_nil in Hl.
Qed.

Lemma universal_newlines_cons (c : ascii) (rest : string) :
  universal_newlines (String c rest) =
  if Ascii.eqb c carriage_return then
    String newline
      match rest with
      | String c' rest' =>
          if Ascii.eqb c' newline then universal_newlines rest'
          else universal_newlines rest
      | EmptyString => EmptyString
      end
  else String c (universal_newlines rest).
Proof. done. Qed.

Lemma universal_newlines_nil (text : string) :
  universal_newlines text = "" → text = "".
Proof.
  destruct text as [|c rest]; [done|]. rewrite universal_newlines_cons.
  by destruct (Ascii.eqb c carriage_return).
Qed.

(** A complete text is translated on its own: its last LF is not the
    second half of a line end that the added text could change. *)
Lemma universal_newlines_app (t1 t2 : string) :
  complete t1 = true →
  universal_newlines (t1 +:+ t2) = universal_newlines t1 +:+ universal_newlines t2.
Proof.
  induction t1 as [|c rest IH]; [done|]. intros Hc.
  destruct rest as [|c' rest'].
  - simpl in Hc. apply Ascii.eqb_eq in Hc as ->. done.
  - specialize (IH Hc).
    change (String c (String c' rest') +:+ t2) with (String c (String c' rest' +:+ t2)).
    rewrite !(universal_newlines_cons c).
    destruct (Ascii.eqb c carriage_return); [|by rewrite IH].
    change (String c' rest' +:+ t2) with (String c' (rest' +:+ t2)) in *.
    destruct (Ascii.eqb c' newline) eqn:Hc'; rewrite ?Hc'; [|by rewrite IH].
    apply Ascii.eqb_eq in Hc' as ->.
    rewrite !(universal_newlines_cons newline) in IH.
    change (Ascii.eqb newline carriage_return) with false in IH. simpl in IH.
    injection IH as IH. simpl. by rewrite IH.
Qed.

Lemma complete_universal_newlines (text : string) :
  complete text = true → complete (universal_newlines text) = true.
Proof.
  induction text as [|c rest IH]; [done|]. intros Hc.
  destruct rest as [|c' rest'].
  - simpl in Hc. apply Ascii.eqb_eq in Hc as ->. done.
  - specialize (IH Hc). rewrite universal_newlines_cons.
    assert (∀ c0 t, t ≠ "" → complete t = true → complete (String c0 t) = true) as Hcons.
    { intros c0 [|? ?]; [done|]. done. }
    destruct (Ascii.eqb c carriage_return).
    + destruct (Ascii.eqb c' newline) eqn:Hc'.
      * apply Ascii.eqb_eq in Hc' as ->.
        by rewrite (universal_newlines_cons newline) in IH.
      * apply Hcons; [|done]. by intros ?%universal_newlines_nil.
    + apply Hcons; [|done]. by intros ?%universal_newlines_nil.
Qed.

(** Text added after a complete last line adds lines, and changes none. *)
Lemma readlines_app (t1 t2 : string) :
  complete t1 = true → readlines (t1 +:+ t2) = readlines t1 ++ readlines t2.
Proof.
  intros Hc. unfold readlines.
  rewrite universal_newlines_app by done.
  by apply lines_of_app, complete_universal_newlines.
Qed.

Lemma existsb_faults_app (l1 l2 : list string) :
  existsb faults (l1 ++ l2) = existsb faults l1 || existsb faults l2.
Proof. apply existsb_app. Qed.

(** X7. Appending to a log that ends with a line feed only appends
    entries, when no line of the log or of the added text makes the
    parser fail otherwise than with [JSONDecodeError]: the entries
    loaded before are a prefix of the entries loaded after, and the
    rest are the entries of the added text. *)
Theorem appended_log_extends (file_path t1 t2 : string) (w w' : world) :
  files w !! file_path = Some (Readable t1) →
  files w' !! file_path = Some (Readable (t1 +:+ t2)) →
  complete t1 = true →
  existsb faults (readlines t1) = false →
  existsb faults (readlines t2) = false →
  ∃ before,
    (load_system_event_log file_path w).1 = Ret before
    ∧ (load_system_event_log file_path w').1
      = Ret (before ++ parsed_entries (readlines t2)).
Proof.
  intros Hf Hf' Hc H1 H2.
  assert (existsb faults (readlines (t1 +:+ t2)) = false) as H12.
  { rewrite readlines_app, existsb_faults_app by done. by rewrite H1, H2. }
  destruct (load_system_event_log_run file_path w) as (l & d & -> & _ & Hcase).
  destruct (load_system_event_log_run file_path w') as (l' & d' & -> & _ & Hcase').
  destruct Hcase as [(? & ? & _ & -> & _)|[Hfail _]];
    [|by destruct (log_failure_not_clean _ _ _ Hf H1)].
  destruct Hcase' as [(? & ? & _ & -> & _)|[Hfail _]];
    [|by destruct (log_failure_not_clean _ _ _ Hf' H12)].
  simplify_eq. eexists. split; [done|]. simpl.
  rewrite readlines_app by done. unfold parsed_entries. by rewrite omap_app.
Qed.

End loader_extras.

Section loader_extras_samples.
Import Samples.

(** A parser that gives up beyond two levels of nesting, and a log
    whose third line has three: nothing is returned, although the
    first line was an entry; the warning for line 2 stays.  The first
    line ends with CR, the second with CR LF. *)
Lemma log_fault_discards_entries_witness :
  let text := dq "{'a': 1}" +:+ cr +:+ "not json" +:+ cr +:+ nl +:+ "[[[1]]]" +:+ nl
              +:+ dq "{'b': 2}" +:+ nl in
  let w := host {[ "events.log" := Readable text ]} in
  @load_system_event_log (Limited.json_limited 2) "events.log" w =
  (Ret [], World (files w) ["events.log"]
                 [Warning (line_warning "events.log" 2);
                  unexpected_error "events.log"
                    "maximum recursion depth exceeded while decoding a JSON array"]).
Proof.
  intros text w.
  rewrite (@log_fault_discards_entries (Limited.json_limited 2) "events.log" text
             [dq "{'a': 1}" +:+ nl; "not json" +:+ nl] [dq "{'b': 2}" +:+ nl]
             ("[[[1]]]" +:+ nl)
             "maximum recursion depth exceeded while decoding a JSON array" w);
    vm_compute; reflexivity.
Defined.

(** The log of the self-test, when reading breaks off after three
    lines; and a log whose first line ends with CR, when reading breaks
    off after two. *)
Lemma log_read_failure_discards_entries_witness :
  let w := host {[ "events.log" := Unreadable dummy_log 3 "Input/output error" ]} in
  let text := "1" +:+ cr +:+ "oops" +:+ nl +:+ "3" +:+ nl in
  let w' := host {[ "events.log" := Unreadable text 2 "Input/output error" ]} in
  load_system_event_log "events.log" w =
  (Ret [], World (files w) ["events.log"]
                 [Warning (line_warning "events.log" 3);
                  unexpected_error "events.log" "Input/output error"])
  ∧ load_system_event_log "events.log" w' =
    (Ret [], World (files w') ["events.log"]
                   [Warning (line_warning "events.log" 2);
                    unexpected_error "events.log" "Input/output error"]).
Proof.
  intros w text w'. split.
  - rewrite (log_read_failure_discards_entries "events.log" dummy_log
               "Input/output error" 3 w);
      vm_compute; reflexivity.
  - rewrite (log_read_failure_discards_entries "events.log" text
               "Input/output error" 2 w');
      vm_compute; reflexivity.
Defined.

(** The log of the self-test: three entries and one warning for four
    non-blank lines.  Two numbers with a CR between them: two entries
    for two lines. *)
Lemma log_lines_accounted_for_witness :
  let w := host {[ "events.log" := Readable dummy_log ]} in
  let w' := host {[ "events.log" := Readable ("1" +:+ cr +:+ "2" +:+ nl) ]} in
  (∃ log_entries d,
     load_system_event_log "events.log" w =
     (Ret log_entries, World (files w) ["events.log"] d)
     ∧ (length log_entries + length d)%nat = 4%nat)
  ∧ (∃ d,
       load_system_event_log "events.log" w' =
       (Ret [JInt 1; JInt 2], World (files w') ["events.log"] d)
       ∧ (2 + length d)%nat = 2%nat).
Proof.
  intros w w'. split.
  - destruct (log_lines_accounted_for "events.log" dummy_log w)
      as (l & d & Hrun & Hcount); [vm_compute; reflexivity..|].
    exists l, d. split; [exact Hrun|exact Hcount].
  - destruct (log_lines_accounted_for "events.log" ("1" +:+ cr +:+ "2" +:+ nl) w')
      as (l & d & Hrun & Hcount); [vm_compute; reflexivity..|].
    assert (l = [JInt 1; JInt 2]) as ->.
    { assert ((load_system_event_log "events.log" w').1 = Ret [JInt 1; JInt 2]) as Hl
        by (vm_compute; reflexivity).
      rewrite Hrun in Hl. by injection Hl. }
    exists d. split; [exact Hrun|exact Hcount].
Defined.

(** A blank line before the line that is not JSON, and a line that
    ends with CR: the warning says 4. *)
Lemma log_warnings_name_file_lines_witness :
  let text := dq "{'a': 1}" +:+ nl +:+ nl +:+ dq "{'b': 2}" +:+ cr +:+ "oops" +:+ nl in
  let w := host {[ "events.log" := Readable text ]} in
  ∃ d, screen (load_system_event_log "events.log" w).2 = d
       ∧ Warning (line_warning "events.log" 4) ∈ d.
Proof.
  intros text w.
  destruct (log_warnings_name_file_lines "events.log" text w) as (d & Hscreen & Hd);
    [vm_compute; reflexivity..|].
  exists d. split; [exact Hscreen|].
  apply Hd. exists 3%nat, ("oops" +:+ nl), "Expecting value".
  split_and!; vm_compute; reflexivity.
Defined.

(** The log of the self-test, written in two goes, the second with
    CR LF for its line ends. *)
Lemma appended_log_extends_witness :
  let t1 := dq "{'message': 'System started'}" +:+ nl in
  let t2 := "This is not a valid JSON line." +:+ cr +:+ nl
            +:+ dq "{'message': 'Critical failure'}" +:+ cr +:+ nl in
  ∃ before,
    (load_system_event_log "events.log" (host {[ "events.log" := Readable t1 ]})).1
    = Ret before
    ∧ (load_system_event_log "events.log"
         (host {[ "events.log" := Readable (t1 +:+ t2) ]})).1
      = Ret (before ++ [JObj [("message", JStr "Critical failure")]]).
Proof.
  intros t1 t2.
  destruct (appended_log_extends "events.log" t1 t2
              (host {[ "events.log" := Readable t1 ]})
              (host {[ "events.log" := Readable (t1 +:+ t2) ]}))
    as (before & Hbefore & Hafter); [vm_compute; reflexivity..|].
  exists before. split; [exact Hbefore|].
  rewrite Hafter. f_equal.
Defined.

End loader_extras_samples.

(** ** More on the pages: empty data, failures, what is never shown *)

Section page_extras.
Context `{JsonLib} `{PandasLib}.

(** Two calls of a loader on the same files return the same value and
    show the same notices. *)
Lemma load_ethics_db_frame (file_path : string) (w w' : world) :
  files w' = files w →
  ∃ v d,
    load_ethics_db file_path w =
    (Ret v, World (files w) (opened w ++ [file_path]) (screen w ++ d))
    ∧ load_ethics_db file_path w' =
      (Ret v, World (files w') (opened w' ++ [file_path]) (screen w' ++ d))
    ∧ Forall (λ x, is_diagnostic x = true) d.
Proof.
  intros Hfs. unfold load_ethics_db, try_except, mbind, M_bind.
  rewrite !json_load_run, Hfs.
  destruct (files w !! file_path) as [[text|text n msg]|]; simpl;
    [|eexists _, [_]; split_and!; [done..|by repeat constructor]..].
  destruct (json_loads text) as [v|msg|msg]; simpl;
    [|eexists _, [_]; split_and!; [done..|by repeat constructor]..].
  destruct (negb (isinstance_dict v) || negb (has_key "ethical_events" v)); simpl.
  - eexists _, [_]. split_and!; [done..|by repeat constructor].
  - exists v, []. rewrite !app_nil_r. by split_and!.
Qed.

Lemma load_knowledge_graph_frame (file_path : string) (w w' : world) :
  files w' = files w →
  ∃ v d,
    load_knowledge_graph file_path w =
    (Ret v, World (files w) (opened w ++ [file_path]) (screen w ++ d))
    ∧ load_knowledge_graph file_path w' =
      (Ret v, World (files w') (opened w' ++ [file_path]) (screen w' ++ d))
    ∧ Forall (λ x, is_diagnostic x = true) d.
Proof.
  intros Hfs. unfold load_knowledge_graph, try_except, mbind, M_bind.
  rewrite !json_load_run, Hfs.
  destruct (files w !! file_path) as [[text|text n msg]|]; simpl;
    [|eexists _, [_]; split_and!; [done..|by repeat constructor]..].
  destruct (json_loads text) as [v|msg|msg]; simpl;
    [|eexists _, [_]; split_and!; [done..|by repeat constructor]..].
  destruct (negb (isinstance_dict v) || negb (has_key "nodes" v)
            || negb (has_key "edges" v)); simpl.
  - eexists _, [_]. split_and!; [done..|by repeat constructor].
  - exists v, []. rewrite !app_nil_r. by split_and!.
Qed.

Lemma load_system_event_log_frame (file_path : string) (w w' : world) :
  files w' = files w →
  ∃ l d,
    load_system_event_log file_path w =
    (Ret l, World (files w) (opened w ++ [file_path]) (screen w ++ d))
    ∧ load_system_event_log file_path w' =
      (Ret l, World (files w') (opened w' ++ [file_path]) (screen w' ++ d))
    ∧ Forall (λ x, is_diagnostic x = true) d.
Proof.
  intros Hfs. unfold load_system_event_log, try_except, mbind, M_bind, py_open.
  rewrite Hfs.
  destruct (files w !! file_path) as [[text|text k msg]|]; simpl.
  - destruct (log_loop_run file_path (readlines text) 1%nat []) as (r & d & Hrun & Hd & Hr).
    rewrite !Hrun. destruct r as [l|e]; simpl.
    + exists l, d. by split_and!.
    + rewrite (Hr e eq_refl). unfold st_error, emit, mret, M_ret. simpl.
      eexists [], (d ++ [_]). rewrite !app_assoc. split_and!; [done..|].
      apply Forall_app. split; [done|]. by repeat constructor.
  - destruct (log_loop_run file_path (take k (readlines text)) 1%nat [])
      as (r & d & Hrun & Hd & Hr).
    rewrite !Hrun. destruct r as [l|e]; simpl.
    + unfold st_error, emit, mret, M_ret. simpl.
      eexists [], (d ++ [_]). rewrite !app_assoc. split_and!; [done..|].
      apply Forall_app. split; [done|]. by repeat constructor.
    + rewrite (Hr e eq_refl). unfold st_error, emit, mret, M_ret. simpl.
      eexists [], (d ++ [_]). rewrite !app_assoc. split_and!; [done..|].
      apply Forall_app. split; [done|]. by repeat constructor.
  - eexists [], [_]. unfold st_error, emit, mret, M_ret. simpl.
    split_and!; [done..|]. by repeat constructor.
Qed.

(** The log page, case by case. *)
Lemma log_page_run (w : world) :
  ∃ l d,
    load_system_event_log SOPHIA_SYSTEM_LOG_PATH w =
    (Ret l, World (files w) (opened w ++ [SOPHIA_SYSTEM_LOG_PATH]) (screen w ++ d))
    ∧ Forall (λ x, is_diagnostic x = true) d
    ∧ system_event_log_viewer_page w =
      let after (r : exc ()) (shown : list widget) :=
        (r, World (files w) (opened w ++ [SOPHIA_SYSTEM_LOG_PATH])
                  (screen w ++ Title "System Event Log Viewer" :: d ++ shown)) in
      match l with
      | [] => after (Ret ()) [no_log_warning]
      | _ =>
          match pd_DataFrame (JArr l) with
          | Ret df =>
              after (Ret ())
                ([Subheader "Last 20 Log Entries";
                  DataFrameView (tail NUM_LOG_ENTRIES_DISPLAY df) 300]
                 ++ log_page_footer)
          | Raise e => after (Raise e) [Subheader "Last 20 Log Entries"]
          end
      end.
Proof.
  set (w1 := World (files w) (opened w) (screen w ++ [Title "System Event Log Viewer"])).
  destruct (load_system_event_log_frame SOPHIA_SYSTEM_LOG_PATH w w1 eq_refl)
    as (l & d & Hrun & Hrun1 & Hd).
  exists l, d. split_and!; [done..|].
  unfold system_event_log_viewer_page.
  erewrite bind_run by reflexivity. fold w1.
  erewrite bind_run by exact Hrun1. subst w1. cbn [files opened screen].
  destruct l as [|e es]; cbn [truthy negb].
  - same_world.
  - erewrite bind_run by reflexivity. cbn [files opened screen].
    cbn [isinstance_list andb length Nat.ltb Nat.leb].
    destruct (pd_DataFrame (JArr (e :: es))) as [df|err] eqn:Hdf.
    + erewrite (bind_run (lift _ ≫= _)) by (erewrite bind_run by reflexivity; reflexivity).
      erewrite bind_run by reflexivity. unfold log_page_footer. same_world.
    + erewrite (bind_raise (lift _ ≫= _)) by (by erewrite bind_raise by reflexivity).
      same_world.
Qed.

(** The knowledge graph page, case by case. *)
Lemma kg_page_run (w : world) :
  ∃ kg_data d,
    load_knowledge_graph SOPHIA_KG_PATH w =
    (Ret kg_data, World (files w) (opened w ++ [SOPHIA_KG_PATH]) (screen w ++ d))
    ∧ Forall (λ x, is_diagnostic x = true) d
    ∧ knowledge_graph_explorer_page w =
      match len_of kg_data "nodes", len_of kg_data "edges" with
      | Ret num_nodes, Ret num_edges =>
          let again := (num_nodes =? 0)%nat && (num_edges =? 0)%nat in
          (Ret (),
           World (files w)
                 (opened w ++ SOPHIA_KG_PATH :: (if again then [SOPHIA_KG_PATH] else []))
                 (screen w ++ Title "Knowledge Graph Explorer" :: d
                  ++ [Subheader "Graph Overview"; Columns 2;
                      Metric "Total Nodes" (JInt (Z.of_nat num_nodes));
                      Metric "Total Edges" (JInt (Z.of_nat num_edges))]
                  ++ (if again then d else []) ++ kg_page_footer))
      | Raise e, _ | Ret _, Raise e =>
          (Raise e,
           World (files w) (opened w ++ [SOPHIA_KG_PATH])
                 (screen w ++ Title "Knowledge Graph Explorer" :: d))
      end.
Proof.
  set (w1 := World (files w) (opened w) (screen w ++ [Title "Knowledge Graph Explorer"])).
  destruct (load_knowledge_graph_frame SOPHIA_KG_PATH w w1 eq_refl)
    as (kg & d & Hrun & Hrun1 & Hd).
  exists kg, d. split_and!; [done..|].
  unfold knowledge_graph_explorer_page.
  erewrite bind_run by reflexivity. fold w1.
  erewrite bind_run by exact Hrun1.
  destruct (load_knowledge_graph_shape SOPHIA_KG_PATH w kg) as (_ & _ & _ & ->);
    [by rewrite Hrun|].
  subst w1. cbn [files opened screen].
  unfold kg_overview, len_of.
  destruct (py_get kg "nodes" (JArr [])) as [nodes|e];
    [erewrite bind_run by reflexivity
    |erewrite bind_raise by reflexivity; same_world].
  destruct (py_len nodes) as [num_nodes|e];
    [erewrite bind_run by reflexivity
    |erewrite bind_raise by reflexivity; same_world].
  destruct (py_get kg "edges" (JArr [])) as [edges|e];
    [erewrite bind_run by reflexivity
    |erewrite bind_raise by reflexivity; same_world].
  destruct (py_len edges) as [num_edges|e];
    [erewrite bind_run by reflexivity
    |erewrite bind_raise by reflexivity; same_world].
  do 4 (erewrite bind_run by reflexivity; cbn [files opened screen]).
  set (w3 := World _ _ _).
  destruct ((num_nodes =? 0)%nat && (num_edges =? 0)%nat) eqn:Hzero; cbn zeta.
  - destruct (load_knowledge_graph_frame SOPHIA_KG_PATH w w3 eq_refl)
      as (kg' & d' & Hrun' & Hrun3 & _).
    rewrite Hrun in Hrun'. injection Hrun' as <- <-%app_inv_head.
    destruct (load_knowledge_graph_shape SOPHIA_KG_PATH w kg) as (_ & Hn & _ & _);
      [by rewrite Hrun|].
    erewrite (bind_run (load_knowledge_graph SOPHIA_KG_PATH ≫= _));
      [|erewrite bind_run by exact Hrun3; reflexivity].
    rewrite (has_key_truthy _ _ Hn). subst w3. cbn [files opened screen negb].
    erewrite bind_run by reflexivity. cbn [files opened screen].
    erewrite bind_run by reflexivity. cbn [files opened screen].
    unfold kg_page_footer. same_world.
  - erewrite bind_run by reflexivity. cbn [files opened screen].
    erewrite bind_run by reflexivity. cbn [files opened screen].
    erewrite bind_run by reflexivity. cbn [files opened screen].
    unfold kg_page_footer. subst w3. same_world.
Qed.

Lemma ethics_data_shape (file_path : string) (w : world) (ethics_data : json) :
  (load_ethics_db file_path w).1 = Ret ethics_data →
  (∃ fields events, ethics_data = JObj fields
                    ∧ assoc "ethical_events" fields = Some events)
  ∧ (ethics_data = default_ethics_db
     ∨ screen (load_ethics_db file_path w).2 = screen w).
Proof.
  destruct (load_ethics_db_run file_path w) as (v & d & -> & Hcase). simpl.
  intros [= ->].
  destruct Hcase as [[(text & _ & _ & Hs) ->]|(_ & -> & _)].
  - split; [|right; by rewrite app_nil_r].
    unfold schema_ok in Hs. simpl in Hs.
    destruct ethics_data as [| | | | | |fields]; try discriminate Hs. simpl in Hs.
    destruct (assoc "ethical_events" fields) as [events|] eqn:Hev; [|discriminate Hs].
    by exists fields, events.
  - split; [by exists [("ethical_events", JArr []); ("trend_analysis", JObj [])], (JArr [])|].
    by left.
Qed.

(** The ethics page, up to its two parts. *)
Lemma ethics_page_run (w : world) :
  ∃ fields events d,
    load_ethics_db SOPHIA_ETHICS_DB_PATH w =
    (Ret (JObj fields),
     World (files w) (opened w ++ [SOPHIA_ETHICS_DB_PATH]) (screen w ++ d))
    ∧ Forall (λ x, is_diagnostic x = true) d
    ∧ assoc "ethical_events" fields = Some events
    ∧ (truthy events = true → d = [])
    ∧ ethical_trends_page w =
      if truthy events then
        (trend_summary_part (JObj fields);; chart_part (JObj fields))
          (World (files w) (opened w ++ [SOPHIA_ETHICS_DB_PATH])
                 (screen w ++ Title "Ethical Trends Analysis" :: d))
      else
        (Ret (), World (files w) (opened w ++ [SOPHIA_ETHICS_DB_PATH])
                       (screen w ++ Title "Ethical Trends Analysis" :: d
                        ++ [no_events_warning])).
Proof.
  set (w1 := World (files w) (opened w) (screen w ++ [Title "Ethical Trends Analysis"])).
  destruct (load_ethics_db_frame SOPHIA_ETHICS_DB_PATH w w1 eq_refl)
    as (data & d & Hrun & Hrun1 & Hd).
  destruct (ethics_data_shape SOPHIA_ETHICS_DB_PATH w data)
    as ((fields & events & -> & Hev) & Hdefault); [by rewrite Hrun|].
  exists fields, events, d. split_and!; [done..| |].
  - intros Htruthy. destruct Hdefault as [[= ->]|Hscreen].
    + simpl in Hev. by simplify_eq.
    + rewrite Hrun in Hscreen. simpl in Hscreen.
      rewrite <- (app_nil_r (screen w)) in Hscreen at 2.
      by apply app_inv_head in Hscreen.
  - unfold ethical_trends_page.
    erewrite bind_run by reflexivity. fold w1.
    erewrite bind_run by exact Hrun1. subst w1. cbn [files opened screen].
    assert (truthy (JObj fields) = true) as -> by (by destruct fields).
    cbn [negb py_get]. rewrite Hev.
    erewrite (bind_run (lift _ ≫= _)) by reflexivity.
    destruct (truthy events); cbn [negb].
    + by rewrite <- !app_assoc.
    + unfold no_events_warning. same_world.
Qed.

(** X9. When the loaded database has no events to show, which is the
    case after every failed load, the ethics page shows its title, the
    notice of the loader if there is one, and the warning that there is
    no data; it shows nothing else and returns. *)
Theorem trend_page_without_events (w : world) (ethics_data events : json) :
  (load_ethics_db SOPHIA_ETHICS_DB_PATH w).1 = Ret ethics_data →
  py_get ethics_data "ethical_events" JNull = Ret events →
  truthy events = false →
  ∃ d, screen (load_ethics_db SOPHIA_ETHICS_DB_PATH w).2 = screen w ++ d
       ∧ Forall (λ x, is_diagnostic x = true) d
       ∧ ethical_trends_page w =
         (Ret (), World (files w) (opened w ++ [SOPHIA_ETHICS_DB_PATH])
                        (screen w ++ Title "Ethical Trends Analysis" :: d
                         ++ [no_events_warning])).
Proof.
  intros Hload Hget Hfalsy.
  destruct (ethics_page_run w) as (fields & events' & d & Hrun & Hd & Hev & _ & ->).
  rewrite Hrun in Hload. simpl in Hload. injection Hload as <-.
  simpl in Hget. rewrite Hev in Hget. injection Hget as ->.
  exists d. rewrite Hrun, Hfalsy. by split_and!.
Qed.

(** X10. An exception while the chart is prepared does not leave the
    page: when [pd.DataFrame] rejects the events, or when the
    timestamps do not convert, the chart part shows the error with the
    message of the exception, no chart, and returns. *)
Theorem chart_errors_are_shown (ethics_data events : json) (e : exn) (w : world) :
  py_getitem ethics_data "ethical_events" = Ret events →
  truthy events = true →
  (pd_DataFrame events = Raise e
   ∨ ∃ records,
       events = JArr records
       ∧ Forall (λ r, isinstance_dict r = true) records
       ∧ existsb (has_key "timestamp") records = true
       ∧ existsb (has_key "final_score") records = true
       ∧ to_datetime (field "timestamp" <$> records) = Raise e) →
  chart_part ethics_data w =
  (Ret (), World (files w) (opened w) (screen w ++ [chart_error (exn_msg e)])).
Proof.
  intros Hget Htruthy Hcause.
  unfold chart_part. rewrite Hget.
  erewrite bind_run by reflexivity. rewrite Htruthy. cbn [negb].
  unfold try_except, ethics_chart.
  destruct Hcause as [Hdf|(records & -> & Hrecords & Hts & Hfs & Hconv)].
  - by erewrite bind_raise by (unfold lift; by rewrite Hdf).
  - assert (pd_DataFrame (JArr records) = Ret (frame_of_records records)) as Hdf.
    { unfold pd_DataFrame. destruct records as [|r rs]; [done|].
      assert (forallb isinstance_dict (r :: rs) = true) as ->; [|done].
      apply forallb_forall. intros x Hx%list_elem_of_In.
      by eapply Forall_forall in Hrecords. }
    rewrite Hdf. erewrite bind_run by reflexivity.
    rewrite !has_column_frame_of_records, Hts, Hfs. cbn [negb].
    rewrite column_frame_of_records.
    + by erewrite bind_raise by (unfold lift; by rewrite Hconv).
    + apply elem_of_union_keys. apply existsb_exists in Hts as (r & Hr & Hk).
      exists r. split; [by apply list_elem_of_In|done].
Qed.

(** The ethics page once there are events: what its two parts do to
    the world that holds the title. *)
Lemma ethics_page_with_events (w : world) (ethics_data events : json) :
  (load_ethics_db SOPHIA_ETHICS_DB_PATH w).1 = Ret ethics_data →
  py_get ethics_data "ethical_events" JNull = Ret events →
  truthy events = true →
  field "ethical_events" ethics_data = Some events
  ∧ ethical_trends_page w =
    (trend_summary_part ethics_data;; chart_part ethics_data)
      (World (files w) (opened w ++ [SOPHIA_ETHICS_DB_PATH])
             (screen w ++ [Title "Ethical Trends Analysis"])).
Proof.
  intros Hload Hget Htruthy.
  destruct (ethics_page_run w) as (fields & events' & d & Hrun & Hd & Hev & Hnil & ->).
  rewrite Hrun in Hload. simpl in Hload. injection Hload as <-.
  simpl in Hget. rewrite Hev in Hget. injection Hget as ->.
  rewrite Htruthy, (Hnil Htruthy). done.
Qed.

(** X11. The trend summary is rendered outside any handler.  When
    [trend_analysis] is there, is truthy and is not a mapping (a list,
    a string, a number), the ethics page raises at the first [.get],
    after the sub-header and the columns, and shows neither metric nor
    chart. *)
Theorem trend_page_raises_on_summary_not_a_mapping (w : world)
    (ethics_data events summary : json) :
  (load_ethics_db SOPHIA_ETHICS_DB_PATH w).1 = Ret ethics_data →
  py_get ethics_data "ethical_events" JNull = Ret events →
  truthy events = true →
  py_get ethics_data "trend_analysis" (JObj []) = Ret summary →
  truthy summary = true →
  isinstance_dict summary = false →
  ∃ e, ethical_trends_page w =
       (Raise e, World (files w) (opened w ++ [SOPHIA_ETHICS_DB_PATH])
                       (screen w ++ [Title "Ethical Trends Analysis";
                                     Subheader "Trend Analysis Summary"; Columns 2])).
Proof.
  intros Hload Hget Htruthy Hsum Hst Hnd.
  destruct (ethics_page_with_events w _ _ Hload Hget Htruthy) as [_ ->].
  unfold trend_summary_part. rewrite Hsum.
  assert (∃ e, py_get summary "current_trend_direction" (JStr "N/A") = Raise e)
    as [e He] by (destruct summary; try discriminate Hnd; by eexists).
  exists e.
  erewrite (bind_raise (lift _ ≫= _)).
  2:{ erewrite bind_run by reflexivity. rewrite Hst.
      do 2 (erewrite bind_run by reflexivity).
      erewrite bind_raise; [reflexivity|]. unfold lift. by rewrite He. }
  same_world.
Qed.

(** X12. The same holds for a score that cannot be formatted with
    [.2f] (a string, [null], a list): the page raises after the first
    metric, and the chart is not reached. *)
Theorem trend_page_raises_on_unformattable_score (w : world)
    (ethics_data events summary direction score : json) (e : exn) :
  (load_ethics_db SOPHIA_ETHICS_DB_PATH w).1 = Ret ethics_data →
  py_get ethics_data "ethical_events" JNull = Ret events →
  truthy events = true →
  py_get ethics_data "trend_analysis" (JObj []) = Ret summary →
  truthy summary = true →
  py_get summary "current_trend_direction" (JStr "N/A") = Ret direction →
  accepted_by_metric direction = true →
  py_get summary "short_term_avg_score_t_weighted" (JInt 0) = Ret score →
  format_2f score = Raise e →
  ethical_trends_page w =
  (Raise e, World (files w) (opened w ++ [SOPHIA_ETHICS_DB_PATH])
                  (screen w ++ [Title "Ethical Trends Analysis";
                                Subheader "Trend Analysis Summary"; Columns 2;
                                Metric "Current Trend Direction" direction])).
Proof.
  intros Hload Hget Htruthy Hsum Hst Hdir Hacc Hscore Hfmt.
  destruct (ethics_page_with_events w _ _ Hload Hget Htruthy) as [_ ->].
  unfold trend_summary_part. rewrite Hsum.
  erewrite (bind_raise (lift _ ≫= _)).
  2:{ erewrite bind_run by reflexivity. rewrite Hst.
      do 2 (erewrite bind_run by reflexivity). rewrite Hdir.
      erewrite bind_run by reflexivity.
      erewrite (bind_run (st_metric _ _)) by (by destruct direction).
      rewrite Hscore. erewrite bind_run by reflexivity.
      erewrite bind_raise; [reflexivity|]. unfold lift. by rewrite Hfmt. }
  same_world.
Qed.

(** X13. When [trend_analysis] is a mapping that is not empty, the two
    metrics show what it holds: the direction as it stands (["N/A"] if
    absent) and the score (0 if absent) formatted with two decimals;
    the chart part follows and the page returns. *)
Theorem trend_page_shows_stored_summary (w : world)
    (ethics_data events summary direction score : json) (formatted : string) :
  (load_ethics_db SOPHIA_ETHICS_DB_PATH w).1 = Ret ethics_data →
  py_get ethics_data "ethical_events" JNull = Ret events →
  truthy events = true →
  py_get ethics_data "trend_analysis" (JObj []) = Ret summary →
  truthy summary = true →
  py_get summary "current_trend_direction" (JStr "N/A") = Ret direction →
  accepted_by_metric direction = true →
  py_get summary "short_term_avg_score_t_weighted" (JInt 0) = Ret score →
  format_2f score = Ret formatted →
  ∃ chart_widgets,
    ethical_trends_page w =
    (Ret (), World (files w) (opened w ++ [SOPHIA_ETHICS_DB_PATH])
                   (screen w
                    ++ [Title "Ethical Trends Analysis";
                        Subheader "Trend Analysis Summary"; Columns 2;
                        Metric "Current Trend Direction" direction;
                        Metric "Short-term Avg Score (Time-Weighted)" (JStr formatted)]
                    ++ chart_widgets))
    ∧ Forall (λ x, is_metric x = false) chart_widgets.
Proof.
  intros Hload Hget Htruthy Hsum Hst Hdir Hacc Hscore Hfmt.
  destruct (ethics_page_with_events w _ _ Hload Hget Htruthy) as [Hev ->].
  unfold trend_summary_part. rewrite Hsum.
  erewrite (bind_run (lift _ ≫= _)).
  2:{ erewrite bind_run by reflexivity. rewrite Hst.
      do 2 (erewrite bind_run by reflexivity). rewrite Hdir.
      erewrite bind_run by reflexivity.
      erewrite (bind_run (st_metric _ _)) by (by destruct direction).
      rewrite Hscore. erewrite bind_run by reflexivity. rewrite Hfmt.
      erewrite bind_run by reflexivity. reflexivity. }
  match goal with
  | |- context [chart_part ?x ?w'] =>
      destruct (chart_part_run x events w') as (cw & -> & Hcw); [done|]
  end.
  exists cw. split; [|done]. same_world.
Qed.

(** The notices of the graph loader at the start of a render, with
    what they tell about the value. *)
Lemma kg_notices (w : world) (kg_data : json) (d : list widget) :
  load_knowledge_graph SOPHIA_KG_PATH w =
  (Ret kg_data, World (files w) (opened w ++ [SOPHIA_KG_PATH]) (screen w ++ d)) →
  (loads_document ["nodes"; "edges"] (files w) SOPHIA_KG_PATH kg_data ∧ d = [])
  ∨ (load_failure ["nodes"; "edges"] (files w) SOPHIA_KG_PATH
     ∧ kg_data = default_knowledge_graph ∧ ∃ x, d = [x] ∧ is_diagnostic x = true).
Proof.
  intros Hrun.
  destruct (load_knowledge_graph_run SOPHIA_KG_PATH w) as (v & d' & Hrun' & Hcase).
  rewrite Hrun in Hrun'. by injection Hrun' as <- <-%app_inv_head.
Qed.

(** X14. For a graph that is not empty, the knowledge graph page shows
    the number of nodes and the number of edges of the loaded graph,
    then the placeholder; it reads the file once and returns. *)
Theorem kg_page_shows_counts (w : world) (kg_data : json) (num_nodes num_edges : nat) :
  (load_knowledge_graph SOPHIA_KG_PATH w).1 = Ret kg_data →
  len_of kg_data "nodes" = Ret num_nodes →
  len_of kg_data "edges" = Ret num_edges →
  num_nodes ≠ O ∨ num_edges ≠ O →
  knowledge_graph_explorer_page w =
  (Ret (), World (files w) (opened w ++ [SOPHIA_KG_PATH])
                 (screen w
                  ++ [Title "Knowledge Graph Explorer";
                      Subheader "Graph Overview"; Columns 2;
                      Metric "Total Nodes" (JInt (Z.of_nat num_nodes));
                      Metric "Total Edges" (JInt (Z.of_nat num_edges))]
                  ++ kg_page_footer)).
Proof.
  intros Hload Hn Hm Hnz.
  destruct (kg_page_run w) as (kg & d & Hrun & Hd & ->).
  rewrite Hrun in Hload. injection Hload as ->. rewrite Hn, Hm.
  assert ((num_nodes =? 0)%nat && (num_edges =? 0)%nat = false) as ->.
  { destruct num_nodes, num_edges; try done. by destruct Hnz. }
  destruct (kg_notices w kg_data d Hrun) as [[_ ->]|(_ & -> & _)].
  - cbn zeta. same_world.
  - vm_compute in Hn, Hm. simplify_eq. by destruct Hnz.
Qed.

(** X15. After a failed load the knowledge graph page still renders:
    both counts are 0, the file is read a second time, and the notice
    of the loader is on the screen twice, before and after the counts. *)
Theorem kg_page_after_failed_load (w : world) :
  load_failure ["nodes"; "edges"] (files w) SOPHIA_KG_PATH →
  ∃ x, is_diagnostic x = true
       ∧ knowledge_graph_explorer_page w =
         (Ret (), World (files w) (opened w ++ [SOPHIA_KG_PATH; SOPHIA_KG_PATH])
                        (screen w
                         ++ [Title "Knowledge Graph Explorer"; x;
                             Subheader "Graph Overview"; Columns 2;
                             Metric "Total Nodes" (JInt 0);
                             Metric "Total Edges" (JInt 0); x]
                         ++ kg_page_footer)).
Proof.
  intros Hfail.
  destruct (kg_page_run w) as (kg & d & Hrun & Hd & ->).
  destruct (kg_notices w kg d Hrun) as [[Hok _]|(_ & -> & x & -> & Hx)].
  - by destruct (load_failure_not_loads _ _ _ _ Hfail Hok).
  - exists x. split; [done|]. cbn -[kg_page_footer]. same_world.
Qed.

Lemma info_not_among (s : string) (xs : list widget) :
  existsb (λ x, match x with Info _ => true | _ => false end) xs = false →
  Info s ∉ xs.
Proof.
  intros Hxs Hin. apply list_elem_of_In in Hin.
  assert (existsb (λ x, match x with Info _ => true | _ => false end) xs = true)
    as Hyes by (apply existsb_exists; by exists (Info s)).
  congruence.
Qed.

Lemma info_not_among_notices (s : string) (d : list widget) :
  Forall (λ x, is_diagnostic x = true) d → Info s ∉ d.
Proof. intros Hd Hin. eapply Forall_forall in Hd; [|exact Hin]. done. Qed.

(** X16. The hint to check the file paths is never shown: the second
    load, made to tell an error from an empty graph, returns a mapping
    with two keys, which is truthy. *)
Theorem kg_hint_never_shown (w : world) :
  ∃ shown, screen (knowledge_graph_explorer_page w).2 = screen w ++ shown
           ∧ kg_hint ∉ shown.
Proof.
  destruct (kg_page_run w) as (kg & d & Hrun & Hd & ->).
  pose proof (info_not_among_notices
                "Consider checking file paths or content if you expected data." d Hd)
    as Hnot.
  destruct (len_of kg "nodes") as [n|e]; [destruct (len_of kg "edges") as [m|e]|];
    cbn [snd screen]; eexists; (split; [reflexivity|]); unfold kg_hint.
  - rewrite not_elem_of_cons, !not_elem_of_app. split_and!; [done|done| | |].
    + by apply info_not_among.
    + destruct (_ && _); [done|apply not_elem_of_nil].
    + by apply info_not_among.
  - rewrite not_elem_of_cons. by split.
  - rewrite not_elem_of_cons. by split.
Qed.

(** X17. A graph whose [nodes] or [edges] has no length (a number,
    [null], [true]) passes the loader, which checks only that the keys
    are there, and makes the page raise before it shows any count. *)
Theorem kg_page_raises_on_unsized_value (w : world) (kg_data : json) (e : exn) :
  (load_knowledge_graph SOPHIA_KG_PATH w).1 = Ret kg_data →
  (len_of kg_data "nodes" = Raise e
   ∨ (∃ n, len_of kg_data "nodes" = Ret n) ∧ len_of kg_data "edges" = Raise e) →
  knowledge_graph_explorer_page w =
  (Raise e, World (files w) (opened w ++ [SOPHIA_KG_PATH])
                  (screen w ++ [Title "Knowledge Graph Explorer"])).
Proof.
  intros Hload Hlen.
  destruct (kg_page_run w) as (kg & d & Hrun & Hd & ->).
  rewrite Hrun in Hload. injection Hload as ->.
  assert (d = []) as ->.
  { destruct (kg_notices w kg_data d Hrun) as [[_ ->]|(_ & -> & _)]; [done|].
    by destruct Hlen as [Hn|[_ Hm]]. }
  by destruct Hlen as [->|[[n ->] ->]].
Qed.

(** X18. When the loaded log is empty, as after every failed load or
    when no line of the file is an entry, the log page shows its
    title, the notices of the loader and the warning that there is no
    data; no table, and it returns. *)
Theorem log_page_without_entries (w : world) :
  (load_system_event_log SOPHIA_SYSTEM_LOG_PATH w).1 = Ret [] →
  ∃ d, screen (load_system_event_log SOPHIA_SYSTEM_LOG_PATH w).2 = screen w ++ d
       ∧ Forall (λ x, is_diagnostic x = true) d
       ∧ system_event_log_viewer_page w =
         (Ret (), World (files w) (opened w ++ [SOPHIA_SYSTEM_LOG_PATH])
                        (screen w ++ Title "System Event Log Viewer" :: d
                         ++ [no_log_warning])).
Proof.
  intros Hload.
  destruct (log_page_run w) as (l & d & Hrun & Hd & ->).
  rewrite Hrun in Hload. injection Hload as ->.
  exists d. rewrite Hrun. by split_and!.
Qed.

(** X19. The table is built outside any handler: when [pd.DataFrame]
    rejects the loaded entries, the log page raises, with only its
    title, the notices of the loader and the sub-header shown. *)
Theorem log_page_raises_when_frame_fails (w : world) (log_entries : list json) (e : exn) :
  (load_system_event_log SOPHIA_SYSTEM_LOG_PATH w).1 = Ret log_entries →
  log_entries ≠ [] →
  pd_DataFrame (JArr log_entries) = Raise e →
  ∃ d, screen (load_system_event_log SOPHIA_SYSTEM_LOG_PATH w).2 = screen w ++ d
       ∧ system_event_log_viewer_page w =
         (Raise e, World (files w) (opened w ++ [SOPHIA_SYSTEM_LOG_PATH])
                         (screen w ++ Title "System Event Log Viewer" :: d
                          ++ [Subheader "Last 20 Log Entries"])).
Proof.
  intros Hload Hne Hdf.
  destruct (log_page_run w) as (l & d & Hrun & Hd & ->).
  rewrite Hrun in Hload. injection Hload as ->.
  exists d. rewrite Hrun, Hdf. by destruct log_entries.
Qed.

(** X20. The notice that the log data is not a list or is empty is
    never shown: the page has already returned when the log is empty. *)
Theorem log_format_info_never_shown (w : world) :
  ∃ shown, screen (system_event_log_viewer_page w).2 = screen w ++ shown
           ∧ log_format_info ∉ shown.
Proof.
  destruct (log_page_run w) as (l & d & Hrun & Hd & ->).
  pose proof (info_not_among_notices
                "Log data is not in the expected list format or is empty." d Hd)
    as Hnot.
  destruct l as [|entry l]; [|destruct (pd_DataFrame _) as [df|e]];
    cbn [snd screen]; eexists; (split; [reflexivity|]); unfold log_format_info;
    rewrite not_elem_of_cons, not_elem_of_app; split_and!; try done;
    by apply info_not_among.
Qed.

(** X21. A load that fails never takes the dashboard down: whichever
    page is selected, when the load of its file fails the render
    returns, and the files are as they were. *)
Theorem main_survives_failed_load (selected_page : page_name) (w : world) :
  page_load_fails selected_page (files w) →
  (main selected_page w).1 = Ret ()
  ∧ files (main selected_page w).2 = files w.
Proof.
  intros Hfail. unfold main.
  do 3 (erewrite bind_run by reflexivity; cbn [files opened screen]).
  set (w3 := World _ _ _).
  destruct selected_page; simpl in Hfail; cbn [page_options].
  - destruct (ethics_page_run w3) as (fields & events & d & Hrun & _ & Hev & _ & ->).
    destruct (load_ethics_db_run SOPHIA_ETHICS_DB_PATH w3) as (v & d' & Hrun' & Hcase).
    rewrite Hrun in Hrun'. injection Hrun' as <- _.
    destruct Hcase as [[Hok _]|(_ & [= ->] & _)];
      [by destruct (load_failure_not_loads _ _ _ _ Hfail Hok)|].
    simpl in Hev. by simplify_eq.
  - destruct (kg_page_run w3) as (kg & d & Hrun & _ & ->).
    destruct (kg_notices w3 kg d Hrun) as [[Hok _]|(_ & -> & _)];
      [by destruct (load_failure_not_loads _ _ _ _ Hfail Hok)|done].
  - destruct (log_page_run w3) as (l & d & Hrun & _ & ->).
    destruct (load_system_event_log_run SOPHIA_SYSTEM_LOG_PATH w3)
      as (l' & d' & Hrun' & _ & Hcase).
    rewrite Hrun in Hrun'. injection Hrun' as <- _.
    destruct Hcase as [(text & Hf & Hclean & _)|[_ ->]]; [|done].
    by destruct (log_failure_not_clean _ _ _ Hf Hclean).
Qed.

End page_extras.

Section page_extras_samples.
Import Samples.

(** No ethics file: the title, the error of the loader, the warning. *)
Lemma trend_page_without_events_witness :
  ethical_trends_page (host ∅) =
  (Ret (), World ∅ [SOPHIA_ETHICS_DB_PATH]
                 [Title "Ethical Trends Analysis";
                  Error ("Error: Ethics DB file not found at " +:+ SOPHIA_ETHICS_DB_PATH
                         +:+ ". Please check the path.");
                  no_events_warning]).
Proof.
  destruct (trend_page_without_events (host ∅) default_ethics_db (JArr []))
    as (d & Hd & _ & ->); [vm_compute; reflexivity..|].
  vm_compute in Hd. subst d. vm_compute. reflexivity.
Defined.

(** A timestamp that does not convert, and events that are a number. *)
Lemma chart_errors_are_shown_witness :
  let event := JObj [("timestamp", JStr "yesterday"); ("final_score", JInt 1)] in
  chart_part (JObj [("ethical_events", JArr [event])]) (host ∅) =
  (Ret (), World ∅ [] [chart_error "Unknown datetime string format"])
  ∧ chart_part (JObj [("ethical_events", JInt 5)]) (host ∅) =
    (Ret (), World ∅ [] [chart_error "DataFrame constructor not properly called!"]).
Proof.
  intros event. split.
  - rewrite (chart_errors_are_shown _ (JArr [event])
               (Exn OtherException "Unknown datetime string format") (host ∅));
      [reflexivity..|].
    right. exists [event]. split_and!; [reflexivity|repeat constructor|reflexivity..].
  - rewrite (chart_errors_are_shown _ (JInt 5)
               (Exn OtherException "DataFrame constructor not properly called!")
               (host ∅));
      [reflexivity..|]. by left.
Defined.

(** [trend_analysis] is a list. *)
Lemma trend_page_raises_on_summary_not_a_mapping_witness :
  let text := dq ("{'ethical_events': [{'timestamp':'2023-01-01T12:00:00Z','final_score':0.8}], "
                  +:+ "'trend_analysis': ['improving']}") in
  let w := host {[ SOPHIA_ETHICS_DB_PATH := Readable text ]} in
  ∃ e, ethical_trends_page w =
       (Raise e, World (files w) [SOPHIA_ETHICS_DB_PATH]
                       [Title "Ethical Trends Analysis";
                        Subheader "Trend Analysis Summary"; Columns 2]).
Proof.
  intros text w.
  pose (event := JObj [("timestamp", JStr "2023-01-01T12:00:00Z");
                      ("final_score",
                       JFloat (S754_finite false 7205759403792794 (-53)))]).
  assert ((load_ethics_db SOPHIA_ETHICS_DB_PATH w).1
          = Ret (JObj [("ethical_events", JArr [event]);
                       ("trend_analysis", JArr [JStr "improving"])])) as Hload
    by (vm_compute; reflexivity).
  exact (trend_page_raises_on_summary_not_a_mapping w _ (JArr [event])
           (JArr [JStr "improving"]) Hload eq_refl eq_refl eq_refl eq_refl eq_refl).
Defined.

(** The score is a string. *)
Lemma trend_page_raises_on_unformattable_score_witness :
  let text := dq ("{'ethical_events': [{'timestamp':'2023-01-01T12:00:00Z','final_score':0.8}], "
                  +:+ "'trend_analysis': {'current_trend_direction': 'up', "
                  +:+ "'short_term_avg_score_t_weighted': 'high'}}") in
  let w := host {[ SOPHIA_ETHICS_DB_PATH := Readable text ]} in
  ∃ e, ethical_trends_page w =
       (Raise e, World (files w) [SOPHIA_ETHICS_DB_PATH]
                       [Title "Ethical Trends Analysis";
                        Subheader "Trend Analysis Summary"; Columns 2;
                        Metric "Current Trend Direction" (JStr "up")]).
Proof.
  intros text w.
  pose (event := JObj [("timestamp", JStr "2023-01-01T12:00:00Z");
                      ("final_score",
                       JFloat (S754_finite false 7205759403792794 (-53)))]).
  pose (summary := JObj [("current_trend_direction", JStr "up");
                        ("short_term_avg_score_t_weighted", JStr "high")]).
  assert ((load_ethics_db SOPHIA_ETHICS_DB_PATH w).1
          = Ret (JObj [("ethical_events", JArr [event]); ("trend_analysis", summary)]))
    as Hload by (vm_compute; reflexivity).
  eexists.
  exact (trend_page_raises_on_unformattable_score w _ (JArr [event]) summary
           (JStr "up") (JStr "high") _ Hload eq_refl eq_refl eq_refl eq_refl eq_refl
           eq_refl eq_refl eq_refl).
Defined.

(** The ethics file of the self-test: "stable" and "0.75". *)
Lemma trend_page_shows_stored_summary_witness :
  let w := host {[ SOPHIA_ETHICS_DB_PATH := Readable dummy_ethics ]} in
  ∃ chart_widgets,
    ethical_trends_page w =
    (Ret (), World (files w) [SOPHIA_ETHICS_DB_PATH]
                   ([Title "Ethical Trends Analysis";
                     Subheader "Trend Analysis Summary"; Columns 2;
                     Metric "Current Trend Direction" (JStr "stable");
                     Metric "Short-term Avg Score (Time-Weighted)" (JStr "0.75")]
                    ++ chart_widgets))
    ∧ Forall (λ x, is_metric x = false) chart_widgets.
Proof.
  intros w.
  eapply (trend_page_shows_stored_summary w _ _ _ (JStr "stable") _ "0.75");
    vm_compute; reflexivity.
Defined.

(** The graph file of the specification: 1 node, 0 edges, one read. *)
Lemma kg_page_shows_counts_witness :
  let w := host {[ SOPHIA_KG_PATH := Readable kg_one_node ]} in
  knowledge_graph_explorer_page w =
  (Ret (), World (files w) [SOPHIA_KG_PATH]
                 ([Title "Knowledge Graph Explorer";
                   Subheader "Graph Overview"; Columns 2;
                   Metric "Total Nodes" (JInt 1); Metric "Total Edges" (JInt 0)]
                  ++ kg_page_footer)).
Proof.
  intros w.
  assert ((load_knowledge_graph SOPHIA_KG_PATH w).1
          = Ret (JObj [("nodes", JArr [JObj [("id", JStr "n1")]]); ("edges", JArr [])]))
    as Hload by (vm_compute; reflexivity).
  rewrite (kg_page_shows_counts w _ 1 0 Hload eq_refl eq_refl); [reflexivity|].
  by left.
Defined.

(** No graph file: the error of the loader twice, around two zeros. *)
Lemma kg_page_after_failed_load_witness :
  let x := Error ("Error: Knowledge Graph file not found at " +:+ SOPHIA_KG_PATH
                  +:+ ". Please check the path.") in
  knowledge_graph_explorer_page (host ∅) =
  (Ret (), World ∅ [SOPHIA_KG_PATH; SOPHIA_KG_PATH]
                 ([Title "Knowledge Graph Explorer"; x;
                   Subheader "Graph Overview"; Columns 2;
                   Metric "Total Nodes" (JInt 0); Metric "Total Edges" (JInt 0); x]
                  ++ kg_page_footer)).
Proof.
  intros x.
  destruct (kg_page_after_failed_load (host ∅)) as (y & _ & Hpage).
  - apply file_missing. reflexivity.
  - rewrite Hpage. vm_compute in Hpage. injection Hpage as <-. reflexivity.
Defined.

(** [nodes] is a number. *)
Lemma kg_page_raises_on_unsized_value_witness :
  let w := host {[ SOPHIA_KG_PATH := Readable (dq "{'nodes': 5, 'edges': []}") ]} in
  knowledge_graph_explorer_page w =
  (Raise (Exn OtherException "object has no len()"),
   World (files w) [SOPHIA_KG_PATH] [Title "Knowledge Graph Explorer"]).
Proof.
  intros w.
  assert ((load_knowledge_graph SOPHIA_KG_PATH w).1
          = Ret (JObj [("nodes", JInt 5); ("edges", JArr [])])) as Hload
    by (vm_compute; reflexivity).
  rewrite (kg_page_raises_on_unsized_value w _
             (Exn OtherException "object has no len()") Hload);
    [reflexivity|by left].
Defined.

(** A log with one line, which is not JSON: no entry, one warning from
    the loader, then the warning of the page. *)
Lemma log_page_without_entries_witness :
  let w := host {[ SOPHIA_SYSTEM_LOG_PATH := Readable ("oops" +:+ nl) ]} in
  system_event_log_viewer_page w =
  (Ret (), World (files w) [SOPHIA_SYSTEM_LOG_PATH]
                 [Title "System Event Log Viewer";
                  Warning (line_warning SOPHIA_SYSTEM_LOG_PATH 1);
                  no_log_warning]).
Proof.
  intros w.
  destruct (log_page_without_entries w) as (d & Hd & _ & ->);
    [vm_compute; reflexivity|].
  vm_compute in Hd. subst d. vm_compute. reflexivity.
Defined.

(** A log with a record and a number. *)
Lemma log_page_raises_when_frame_fails_witness :
  let w := host {[ SOPHIA_SYSTEM_LOG_PATH := Readable (dq "{'a': 1}" +:+ nl +:+ "5" +:+ nl) ]} in
  system_event_log_viewer_page w =
  (Raise (Exn OtherException "DataFrame constructor not properly called!"),
   World (files w) [SOPHIA_SYSTEM_LOG_PATH]
         [Title "System Event Log Viewer"; Subheader "Last 20 Log Entries"]).
Proof.
  intros w.
  destruct (log_page_raises_when_frame_fails w [JObj [("a", JInt 1)]; JInt 5]
              (Exn OtherException "DataFrame constructor not properly called!"))
    as (d & Hd & ->); [vm_compute; reflexivity|discriminate|reflexivity|].
  vm_compute in Hd. subst d. vm_compute. reflexivity.
Defined.

(** None of the three files is there: each page renders all the same. *)
Lemma main_survives_failed_load_witness :
  (main EthicalTrends (host ∅)).1 = Ret ()
  ∧ (main KnowledgeGraphExplorer (host ∅)).1 = Ret ()
  ∧ (main SystemEventLogViewer (host ∅)).1 = Ret ().
Proof.
  split_and!.
  - apply (main_survives_failed_load EthicalTrends (host ∅)).
    apply file_missing. reflexivity.
  - apply (main_survives_failed_load KnowledgeGraphExplorer (host ∅)).
    apply file_missing. reflexivity.
  - apply (main_survives_failed_load SystemEventLogViewer (host ∅)).
    apply log_missing. reflexivity.
Defined.

End page_extras_samples.
